(** * Rufusl: FAT32 formatting (src/linux/fat32.c)

    A shallow embedding of [format_fat32] and the properties of the volume
    layout it writes: geometry selection, FAT size arithmetic, patching of
    the boot sector template, and the sequence of device writes. *)

From Stdlib Require Import ZArith List String Ascii Lia Bool.
From stdpp Require Import base numbers list.
Import ListNotations.

Local Open Scope Z_scope.

(** * The model *)

(** ** Machine integers *)

Module C.

Definition UINT32_MAX : Z := 4294967295.

(** Conversion to [uint32_t], and arithmetic carried out in [uint32_t]:
    the result is reduced modulo 2^32. *)
Definition u32 (z : Z) : Z := z mod 2 ^ 32.

(** Conversion to [uint8_t] / [unsigned char]. *)
Definition u8 (z : Z) : Z := z mod 2 ^ 8.

End C.
Import C.

(** ** The world outside the function *)

(** An argument of a [printf]-style call. *)
Inductive arg :=
| ArgInt (z : Z)
| ArgStr (s : string).

(** What the function does to the outside, in program order.
    [EvWrite fd off data ok] is one expansion of [SEEKNWRITE]: a seek of
    [fd] to byte offset [off] followed by a write of [data]; [ok] records
    whether the write primitive reported success. *)
Inductive event :=
| EvPerror (s : string)
| EvPrintf (fmt : string) (args : list arg)
| EvWrite (fd off : Z) (data : list Z) (ok : bool)
| EvSync.

(** The block device behind [*part_fd].
    - [blkgetsize]: the sector count stored into [DskSize] by
      [ioctl(fd, BLKGETSIZE, &DskSize)], or [None] when the ioctl returns a
      negative value;
    - [write_ok k]: whether the [k]-th write issued (counting from 0)
      reports success;
    - [sync_done]: whether the write-back started by [sync()] reaches stable
      storage.  [sync()] has return type [void], so the program has no way
      to read this field. *)
Record device := Device {
  blkgetsize : option Z;
  write_ok : nat -> bool;
  sync_done : bool
}.

(** ** A small monad for the function body

    State: the events so far and the number of writes issued.  A
    computation either goes on with a value, leaves the function through a
    C [return], or faults. *)

Inductive fault := Uninitialised | OutOfFuel.

Inductive outcome (A : Type) :=
| Next (a : A)
| Return (r : Z)
| Fault (f : fault).
Arguments Next {A} a.
Arguments Return {A} r.
Arguments Fault {A} f.

Record state := State { trace : list event; nwrites : nat }.

Definition M (A : Type) : Type := state -> outcome A * state.

Definition pure {A} (a : A) : M A := fun s => (Next a, s).

Definition bind {A B} (m : M A) (k : A -> M B) : M B :=
  fun s =>
    match m s with
    | (Next a, s') => k a s'
    | (Return r, s') => (Return r, s')
    | (Fault f, s') => (Fault f, s')
    end.

Definition return_ {A} (r : Z) : M A := fun s => (Return r, s).

Definition fault_ {A} (f : fault) : M A := fun s => (Fault f, s).

Definition emit (e : event) : M unit :=
  fun s => (Next tt, State (trace s ++ [e]) (nwrites s)).

#[global] Instance M_ret : MRet M := @pure.
#[global] Instance M_bind : MBind M := fun A B k m => bind m k.

Definition perror (s : string) : M unit := emit (EvPerror s).

Definition r_printf (fmt : string) (args : list arg) : M unit :=
  emit (EvPrintf fmt args).

Definition sync : M unit := emit EvSync.

(** Modelled from the spec: the macro [SEEKNWRITE] is defined in a header
    that is not part of the sources.  Section 4.4: each write is a
    seek-then-write pair; any write failure aborts the sequence immediately
    and is reported.  The expansion seeks [fd] to [offset], writes the first
    [size] bytes of [data], and leaves [format_fat32] with -1 (the value
    every other failure path of the function returns) when the write
    reports failure. *)
Definition SEEKNWRITE (dev : device) (fd offset : Z) (data : list Z)
    (size : nat) : M unit :=
  fun s =>
    let ok := write_ok dev (nwrites s) in
    let s' := State (trace s ++ [EvWrite fd offset (take size data) ok])
                    (S (nwrites s)) in
    if ok then (Next tt, s') else (Return (-1), s').

(** Running a function body from the empty trace.  The result is [None]
    when the body faults or falls off its end without a [return]. *)
Definition finish {A} (r : outcome A * state) : option Z * list event :=
  match r with
  | (Return r, s) => (Some r, trace s)
  | (_, s) => (None, trace s)
  end.

Definition call {A} (m : M A) : option Z * list event :=
  finish (m (State [] 0%nat)).

(** ** The constant templates *)

(** The boot sector template, one list per row of the legend in the
    source: 90 bytes of header fields, 420 bytes of blank boot code (30 rows
    of 14 zero bytes in the source), and the signature. *)
Definition fat32_bpb : list Z :=
     (*  0 *) [0xEB; 0x00; 0x90]
  ++ (*  3 *) [0x52; 0x55; 0x46; 0x55; 0x53; 0x4c; 0x00; 0x00]
  ++ (* 11 *) [0x00; 0x02]
  ++ (* 13 *) [0x00]
  ++ (* 14 *) [0x20; 0x00]
  ++ (* 16 *) [0x02]
  ++ (* 17 *) [0x00; 0x00]
  ++ (* 19 *) [0x00; 0x00]
  ++ (* 21 *) [0xF8]
  ++ (* 22 *) [0x00; 0x00]
  ++ (* 24 *) [0xFF; 0xFF]
  ++ (* 26 *) [0xFF; 0xFF]
  ++ (* 28 *) [0x00; 0x00; 0x00; 0x00]
  ++ (* 32 *) [0x00; 0x00; 0x00; 0x00]
  ++ (* 36 *) [0x00; 0x00; 0x00; 0x00]
  ++ (* 40 *) [0x00; 0x00]
  ++ (* 42 *) [0x00; 0x00]
  ++ (* 44 *) [0x02; 0x00; 0x00; 0x00]
  ++ (* 48 *) [0x01; 0x00]
  ++ (* 50 *) [0x06; 0x00]
  ++ (* 52 *) [0x00; 0x00; 0x00; 0x00; 0x00; 0x00;
               0x00; 0x00; 0x00; 0x00; 0x00; 0x00]
  ++ (* 64 *) [0x80]
  ++ (* 65 *) [0x00]
  ++ (* 66 *) [0x29]
  ++ (* 67 *) [0xBE; 0xBA; 0xFE; 0xCA]
  ++ (* 71 *) [0x4E; 0x4F; 0x20; 0x4E; 0x41; 0x4D;
               0x45; 0x20; 0x20; 0x20; 0x20]
  ++ (* 82 *) [0x46; 0x41; 0x54; 0x33; 0x32; 0x20; 0x20; 0x20]
  ++ (* 90 *) repeat 0x00 (30 * 14)
  ++ (* 510 *) [0x55; 0xAA].

(** The FSInfo template: lead signature, 480 bytes of empty space (34 rows
    of 14 zero bytes and a row of 4), structure signature, the two
    free-cluster hints, reserved space and the trailing signature. *)
Definition fat32_fsi : list Z :=
     (*   0 *) [0x52; 0x52; 0x61; 0x41]
  ++ (*   4 *) repeat 0x00 (34 * 14 + 4)
  ++ (* 484 *) [0x72; 0x72; 0x41; 0x61]
  ++ (* 488 *) [0xFF; 0xFF; 0xFF; 0xFF]
  ++ (* 492 *) [0xFF; 0xFF; 0xFF; 0xFF]
  ++ (* 496 *) [0x00; 0x00; 0x00; 0x00; 0x00; 0x00;
                0x00; 0x00; 0x00; 0x00; 0x00; 0x00]
  ++ (* 508 *) [0x00; 0x00; 0x55; 0xAA].

(** The empty FAT: media descriptor entry, root end-of-chain, blank
    end-of-chain. *)
Definition fat32_fat : list Z :=
  [ 0xF8; 0xFF; 0xFF; 0x0F;
    0xFF; 0xFF; 0xFF; 0x0F;
    0xFF; 0xFF; 0xFF; 0x0F ].

(** Modelled from the spec: the four offset macros come from a header that
    is not part of the sources.  Section 6 (and the legend in the source)
    gives SecPerClus at 13, TotSec32 at 32, FATSz32 at 36, VolLab at 71. *)
Definition BPB_SEC_PER_CLUS_OFFSET : nat := 13.
Definition BPB_TOT_SEC_32_OFFSET : nat := 32.
Definition BPB_FAT_SZ_32_OFFSET : nat := 36.
Definition BPB_LABEL_OFFSET : nat := 71.

(** Modelled from the spec: the [BS_*] constants that [cluster_size] is
    compared with come from a header that is not part of the sources.  The
    seven case labels are distinct constants; [BS_AUTO] stands for every
    other value of the [uint8_t] argument, which takes the [default]
    branch (the "automatic" policy of section 3). *)
Inductive cluster_size_t :=
| BS_512B | BS_1024B | BS_2048B | BS_4096B
| BS_8192B | BS_16384B | BS_32768B
| BS_AUTO.

#[global] Instance cluster_size_eq_dec : EqDecision cluster_size_t.
Proof. solve_decision. Defined.

(** ** The label as a C string *)

Definition byte_of_ascii (a : ascii) : Z := Z.of_N (N_of_ascii a).

(** The bytes of the caller's buffer; a terminating zero byte follows. *)
Definition label_bytes (label : string) : list Z :=
  map byte_of_ascii (list_ascii_of_string label).

(** [*(label+i)]. *)
Definition label_at (label : string) (i : nat) : Z :=
  nth i (label_bytes label) 0.

Fixpoint strlen_bytes (s : list Z) : nat :=
  match s with
  | [] => 0
  | c :: s' => if c =? 0 then 0 else S (strlen_bytes s')
  end.

Definition strlen (label : string) : nat := strlen_bytes (label_bytes label).

Definition LF : string := String (ascii_of_nat 10) EmptyString.

(** A format string that ends in a newline. *)
Definition line (s : string) : string := String.append s LF.

(** ** [format_fat32] *)

Definition BPB_ResvdSecCnt : Z := 32.
Definition BPB_NumFATs : Z := 2.

(** The [switch] on [cluster_size].  In the [default] branch the chain of
    comparisons has no final [else]: a [DskSize] of 0xFFFFFFFF or more would
    leave [BPB_SecPerClus] without a value. *)
Definition select_SecPerClus (cluster_size : cluster_size_t) (DskSize : Z)
    : M Z :=
  match cluster_size with
  | BS_512B => mret 1
  | BS_1024B => mret 2
  | BS_2048B => mret 4
  | BS_4096B => mret 8
  | BS_8192B => mret 16
  | BS_16384B => mret 32
  | BS_32768B => mret 64
  | BS_AUTO =>
      r_printf (line "Autosetting cluster size.") [];;
      if DskSize <? 66600 then
        r_printf (line "ERROR: Volume is too small!") [];;
        return_ (-1)
      else if DskSize <? 532480 then mret 1
      else if DskSize <? 16777216 then mret 8
      else if DskSize <? 33554432 then mret 16
      else if DskSize <? 67108864 then mret 32
      else if DskSize <? 0xFFFFFFFF then mret 64
      else fault_ Uninitialised
  end.

(** The FAT size computation.  [TmpVal1] is a [uint32_t] difference;
    [(256 * BPB_SecPerClus) + BPB_NumFATs] is computed in [int] from two
    promoted 8-bit values (at most 256 * 255 + 2, so it cannot overflow)
    and converted to [uint32_t] by the initialisation; the rest is
    [uint32_t] arithmetic. *)
Definition compute_FATSz32 (BPB_TotSec32 BPB_SecPerClus : Z) : Z :=
  let TmpVal1 := u32 (BPB_TotSec32 - BPB_ResvdSecCnt) in
  let TmpVal2 := u32 (256 * BPB_SecPerClus + BPB_NumFATs) in
  let TmpVal2 := u32 (TmpVal2 / 2) in
  u32 (u32 (TmpVal1 + u32 (TmpVal2 - 1)) / TmpVal2).

(** [buf[i] = v] for an [unsigned char] buffer. *)
Definition store (buf : list Z) (i : nat) (v : Z) : list Z :=
  <[i := u8 v]> buf.

(** Steps 2/4 and 3/4: a 32-bit value dissected into four bytes, highest
    byte first in program order, least significant byte at the lowest
    offset. *)
Definition store_le32 (buf : list Z) (off : nat) (v : Z) : list Z :=
  let buf := store buf (off + 3) (Z.land (Z.shiftr v 24) 0xFF) in
  let buf := store buf (off + 2) (Z.land (Z.shiftr v 16) 0xFF) in
  let buf := store buf (off + 1) (Z.land (Z.shiftr v 8) 0xFF) in
  store buf off (Z.land v 0xFF).

(** The inner loop [for (; i < 11; i++) fat32_bpb[BPB_LABEL_OFFSET + i] = 0]:
    the final value of [i] and the buffer. *)
Fixpoint zero_rest (fuel : nat) (i : nat) (bpb : list Z)
    : option (nat * list Z) :=
  match fuel with
  | O => None
  | S fuel' =>
      if (i <? 11)%nat then
        zero_rest fuel' (S i) (store bpb (BPB_LABEL_OFFSET + i) 0x00)
      else Some (i, bpb)
  end.

(** The outer loop [for (int i = 0; i < 11; i++)], entered at [i].  The
    inner loop shares the counter, so the outer increment follows the
    value the inner loop leaves in [i]. *)
Fixpoint label_loop (fuel : nat) (label : string) (i : nat) (bpb : list Z)
    : option (list Z) :=
  match fuel with
  | O => None
  | S fuel' =>
      if (i <? 11)%nat then
        let bpb := store bpb (BPB_LABEL_OFFSET + i) (label_at label i) in
        if label_at label i =? 0x00 then
          match zero_rest fuel' i bpb with
          | Some (i', bpb') => label_loop fuel' label (S i') bpb'
          | None => None
          end
        else label_loop fuel' label (S i) bpb
      else Some bpb
  end.

(** Step 4/4 as a computation; 16 units of fuel are more than any run of
    the two loops needs (see [label_loop_spec]). *)
Definition patch_label (label : string) (bpb : list Z) : M (list Z) :=
  match label_loop 16 label 0 bpb with
  | Some bpb' => mret bpb'
  | None => fault_ OutOfFuel
  end.

(** The six [SEEKNWRITE] lines, [sync()] and [return 0].  The offset of the
    first FAT, [BPB_ResvdSecCnt * 512], is an [int] product; the offset of
    the second FAT, [(BPB_ResvdSecCnt + BPB_FATSz32) * 512], has a
    [uint32_t] operand, so both the sum and the product are [uint32_t]. *)
Definition write_phase (dev : device) (part_fd : Z) (bpb : list Z)
    (BPB_FATSz32 : Z) : M unit :=
  SEEKNWRITE dev part_fd 0 bpb 512;;
  SEEKNWRITE dev part_fd 512 fat32_fsi 512;;
  SEEKNWRITE dev part_fd 3072 bpb 512;;
  SEEKNWRITE dev part_fd 3584 fat32_fsi 512;;
  SEEKNWRITE dev part_fd (BPB_ResvdSecCnt * 512) fat32_fat 12;;
  SEEKNWRITE dev part_fd
    (u32 (u32 (BPB_ResvdSecCnt + BPB_FATSz32) * 512)) fat32_fat 12;;
  sync;;
  return_ 0.

Definition format_fat32_body (dev : device) (part_fd : Z)
    (cluster_size : cluster_size_t) (label : string) : M unit :=
  match blkgetsize dev with
  | None =>
      perror "ioctl";;
      return_ (-1)
  | Some DskSize =>
      if DskSize >? UINT32_MAX - 1 then
        r_printf (line "Volume to big for FAT32!") [];;
        return_ (-1)
      else
        BPB_SecPerClus ← select_SecPerClus cluster_size DskSize;
        let BPB_TotSec32 := u32 DskSize in
        let BPB_FATSz32 := compute_FATSz32 BPB_TotSec32 BPB_SecPerClus in
        r_printf (line "Device fd: %d") [ArgInt part_fd];;
        r_printf (line "Label: %s") [ArgStr label];;
        r_printf (line "Sectors per cluter: %d") [ArgInt BPB_SecPerClus];;
        r_printf (line "Total sectors: %d") [ArgInt BPB_TotSec32];;
        r_printf (line "FAT32 FAT Size: %d") [ArgInt BPB_FATSz32];;
        r_printf (line "BPB Size: %ld") [ArgInt 512];;
        r_printf (line "FSI Size: %ld") [ArgInt 512];;
        r_printf (line "FAT Size: %ld") [ArgInt 12];;
        let bpb := store fat32_bpb BPB_SEC_PER_CLUS_OFFSET BPB_SecPerClus in
        let bpb := store_le32 bpb BPB_TOT_SEC_32_OFFSET BPB_TotSec32 in
        let bpb := store_le32 bpb BPB_FAT_SZ_32_OFFSET BPB_FATSz32 in
        (if (11 <? strlen label)%nat then
           r_printf
             "WARNING: Label is larger than allowed 11 chars. Will truncate."
             []
         else mret tt);;
        bpb ← patch_label label bpb;
        r_printf (line "File descriptor: %d") [ArgInt part_fd];;
        write_phase dev part_fd bpb BPB_FATSz32
  end.

(** The call [format_fat32(&part_fd, cluster_size, label)] on [dev]: the
    value returned and the events it caused. *)
Definition format_fat32 (dev : device) (part_fd : Z)
    (cluster_size : cluster_size_t) (label : string)
    : option Z * list event :=
  call (format_fat32_body dev part_fd cluster_size label).

(** ** Observations on a run *)

(** The writes issued, in order: byte offset and bytes. *)
Definition writes_of (t : list event) : list (Z * list Z) :=
  omap (fun e => match e with
                 | EvWrite _ off data _ => Some (off, data)
                 | _ => None
                 end) t.

(** The boot sector handed to the first write. *)
Definition written_bpb (t : list event) : option (list Z) :=
  match writes_of t with
  | (_, data) :: _ => Some data
  | [] => None
  end.

(** A little-endian 32-bit field read back from a buffer. *)
Definition load_le32 (buf : list Z) (off : nat) : Z :=
  nth off buf 0 + 2 ^ 8 * nth (off + 1) buf 0
  + 2 ^ 16 * nth (off + 2) buf 0 + 2 ^ 24 * nth (off + 3) buf 0.

(** The 11-byte label field of a boot sector. *)
Definition label_field (bpb : list Z) : list Z :=
  take 11 (drop BPB_LABEL_OFFSET bpb).

Definition is_printf (e : event) : bool :=
  match e with EvPrintf _ _ => true | _ => false end.

(** The inputs that get past the capacity checks: the ioctl yields a
    sector count [c], [c] is not above [UINT32_MAX - 1], and under the
    automatic policy [c] is not below 66600. *)
Definition reaches_write_phase (dev : device) (cluster_size : cluster_size_t)
    (c : Z) : Prop :=
  blkgetsize dev = Some c /\ c <= UINT32_MAX - 1 /\
  (cluster_size = BS_AUTO -> 66600 <= c).

(** A device of [c] sectors on which every write succeeds. *)
Definition good_dev (c : Z) : device := Device (Some c) (fun _ => true) true.

(** What a run wrote into the three geometry fields of the boot sector. *)
Definition written_SecPerClus (t : list event) : option Z :=
  match written_bpb t with
  | Some bpb => bpb !! BPB_SEC_PER_CLUS_OFFSET
  | None => None
  end.

Definition written_TotSec32 (t : list event) : option Z :=
  match written_bpb t with
  | Some bpb => Some (load_le32 bpb BPB_TOT_SEC_32_OFFSET)
  | None => None
  end.

Definition written_FATSz32 (t : list event) : option Z :=
  match written_bpb t with
  | Some bpb => Some (load_le32 bpb BPB_FAT_SZ_32_OFFSET)
  | None => None
  end.

(** [n] bytes of a buffer from offset [off]. *)
Definition bytes_at (buf : list Z) (off n : nat) : list Z :=
  take n (drop off buf).

(** The device contents a trace leaves behind: the bytes of the successful
    writes, later writes over earlier ones; [None] where nothing was
    written. *)
Definition disk : Type := Z -> option Z.

Definition apply_write (d : disk) (off : Z) (data : list Z) : disk :=
  fun a =>
    if (off <=? a) && (a <? off + Z.of_nat (length data))
    then data !! Z.to_nat (a - off)
    else d a.

Definition disk_after (t : list event) : disk :=
  fold_left
    (fun d e =>
       match e with
       | EvWrite _ off data true => apply_write d off data
       | _ => d
       end)
    t (fun _ => None).

(** ** Vocabulary of the statements *)

(** The byte the loops leave at position [k] of the label field: the
    source byte while the terminator has not been met, zero afterwards. *)
Definition field_byte (label : string) (k : nat) : Z :=
  if (k <? strlen label)%nat then label_at label k else 0.

(** Steps 1/4 to 3/4 applied to the template. *)
Definition geometry_bpb (spc tot fatsz : Z) : list Z :=
  store_le32
    (store_le32 (store fat32_bpb BPB_SEC_PER_CLUS_OFFSET spc)
       BPB_TOT_SEC_32_OFFSET tot)
    BPB_FAT_SZ_32_OFFSET fatsz.

(** The offset expression of the sixth write. *)
Definition second_fat_offset (BPB_FATSz32 : Z) : Z :=
  u32 (u32 (BPB_ResvdSecCnt + BPB_FATSz32) * 512).

(** The six writes of a run with boot sector [bpb] and FAT size [fatsz]. *)
Definition six_writes (bpb : list Z) (fatsz : Z) : list (Z * list Z) :=
  [ (0, bpb); (512, fat32_fsi); (3072, bpb); (3584, fat32_fsi);
    (16384, fat32_fat); (second_fat_offset fatsz, fat32_fat) ].

Definition write_event (fd : Z) (ok : bool) (w : Z * list Z) : event :=
  EvWrite fd (fst w) (snd w) ok.

Definition debug_logs (fd : Z) (label : string) (spc tot fatsz : Z)
    : list event :=
  [ EvPrintf (line "Device fd: %d") [ArgInt fd];
    EvPrintf (line "Label: %s") [ArgStr label];
    EvPrintf (line "Sectors per cluter: %d") [ArgInt spc];
    EvPrintf (line "Total sectors: %d") [ArgInt tot];
    EvPrintf (line "FAT32 FAT Size: %d") [ArgInt fatsz];
    EvPrintf (line "BPB Size: %ld") [ArgInt 512];
    EvPrintf (line "FSI Size: %ld") [ArgInt 512];
    EvPrintf (line "FAT Size: %ld") [ArgInt 12] ].

Definition truncation_warning : event :=
  EvPrintf "WARNING: Label is larger than allowed 11 chars. Will truncate." [].

Definition label_logs (label : string) : list event :=
  if (11 <? strlen label)%nat then [truncation_warning] else [].

(** The events of a run before its first write. *)
Definition prelude (logs : list event) (fd : Z) (label : string)
    (spc tot fatsz : Z) : list event :=
  logs ++ debug_logs fd label spc tot fatsz ++ label_logs label
    ++ [EvPrintf (line "File descriptor: %d") [ArgInt fd]].

(** The boot sector a run hands to the write phase: the label positions
    hold [field_byte], every other position is as steps 1/4 to 3/4 left
    it. *)
Definition is_patched_bpb (bpb : list Z) (label : string)
    (spc tot fatsz : Z) : Prop :=
  length bpb = 512%nat /\
  forall j, bpb !! j =
    if decide (BPB_LABEL_OFFSET <= j < BPB_LABEL_OFFSET + 11)%nat
    then Some (field_byte label (j - BPB_LABEL_OFFSET))
    else geometry_bpb spc tot fatsz !! j.

Definition autoset_log : event :=
  EvPrintf (line "Autosetting cluster size.") [].

Definition too_small_log : event :=
  EvPrintf (line "ERROR: Volume is too small!") [].

Definition too_big_log : event :=
  EvPrintf (line "Volume to big for FAT32!") [].

Definition all_writes_ok (dev : device) : Prop :=
  forall k, (k < 6)%nat -> write_ok dev k = true.

(** A device of 100000 sectors on which every write succeeds and whose
    flush never reaches stable storage. *)
Definition dev_flush_lost : device :=
  Device (Some 100000) (fun _ => true) false.

(** A little-endian 16-bit field read back from a buffer. *)
Definition load_le16 (buf : list Z) (off : nat) : Z :=
  nth off buf 0 + 2 ^ 8 * nth (off + 1) buf 0.

(** The number of clusters in the data region of a volume whose header
    announces [tot] sectors in all, [BPB_ResvdSecCnt] reserved sectors,
    [BPB_NumFATs] FATs of [fatsz] sectors and [spc] sectors per cluster. *)
Definition data_clusters (tot fatsz spc : Z) : Z :=
  (tot - BPB_ResvdSecCnt - BPB_NumFATs * fatsz) / spc.


(** ** The specification's own words *)

(** The label field in the words of the specification (section 4.3): copy
    source bytes until either 11 bytes are copied or a terminator byte is
    met, then fill the rest of the field with zero. *)
Fixpoint until_nul (src : list Z) : list Z :=
  match src with
  | [] => []
  | c :: src' => if c =? 0 then [] else c :: until_nul src'
  end.

Definition label_field_spec (label : string) : list Z :=
  let copied := take 11 (until_nul (label_bytes label)) in
  copied ++ replicate (11 - length copied) 0.

(** Section 4.1 in its own words: the ascending capacity thresholds of the
    automatic policy, each with the sectors-per-cluster value it selects
    ([None]: the volume is too small), and the rule that the first
    threshold the capacity lies below applies. *)
Definition auto_thresholds : list (Z * option Z) :=
  [ (66600, None); (532480, Some 1); (16777216, Some 8);
    (33554432, Some 16); (67108864, Some 32); (0xFFFFFFFF, Some 64) ].

Fixpoint first_match (c : Z) (table : list (Z * option Z))
    : option (option Z) :=
  match table with
  | [] => None
  | (bound, r) :: rest => if c <? bound then Some r else first_match c rest
  end.

(** Section 4.2 in its own words, every operation carried out in unsigned
    32-bit arithmetic: usable = totalSectors - 32; entriesPerFatSectorPair
    = ((256 * sectorsPerCluster) + 2) / 2; FATSz32 = (usable +
    entriesPerFatSectorPair - 1) / entriesPerFatSectorPair. *)
Definition FATSz32_spec (totalSectors sectorsPerCluster : Z) : Z :=
  let usable := u32 (totalSectors - 32) in
  let entriesPerFatSectorPair :=
    u32 (u32 (u32 (256 * sectorsPerCluster) + 2) / 2) in
  u32 (u32 (u32 (usable + entriesPerFatSectorPair) - 1)
       / entriesPerFatSectorPair).

(** * Properties *)

(** ** Machine integers and template sizes *)

Lemma u32_range z : 0 <= u32 z < 2 ^ 32.
Proof. unfold u32. apply Z.mod_pos_bound. lia. Qed.

Lemma u32_id z : 0 <= z < 2 ^ 32 -> u32 z = z.
Proof. intros H. unfold u32. apply Z.mod_small. exact H. Qed.

Lemma u8_range z : 0 <= u8 z < 256.
Proof. unfold u8. apply Z.mod_pos_bound. lia. Qed.

Lemma u8_id z : 0 <= z < 256 -> u8 z = z.
Proof. intros H. unfold u8. apply Z.mod_small. exact H. Qed.

Example fat32_bpb_size : length fat32_bpb = 512%nat.
Proof. reflexivity. Qed.

Example fat32_fsi_size : length fat32_fsi = 512%nat.
Proof. reflexivity. Qed.

Example fat32_fat_size : length fat32_fat = 12%nat.
Proof. reflexivity. Qed.

(** ** The label loop *)

Lemma byte_of_ascii_range a : 0 <= byte_of_ascii a < 256.
Proof.
  unfold byte_of_ascii. pose proof (N_ascii_bounded a) as H. lia.
Qed.

Lemma label_at_range label i : 0 <= label_at label i < 256.
Proof.
  unfold label_at, label_bytes.
  destruct (Nat.lt_ge_cases i (length (map byte_of_ascii (list_ascii_of_string label)))) as [Hlt | Hge].
  - rewrite (nth_indep _ 0 (byte_of_ascii zero)) by exact Hlt.
    rewrite map_nth. apply byte_of_ascii_range.
  - rewrite nth_overflow by exact Hge. lia.
Qed.

Lemma strlen_bytes_nonzero s k :
  (k < strlen_bytes s)%nat -> nth k s 0 <> 0.
Proof.
  revert k. induction s as [| c s IH]; intros k Hk; simpl in *; [lia |].
  destruct (Z.eqb_spec c 0) as [-> | Hc]; [lia |].
  destruct k as [| k]; [exact Hc |]. apply IH. lia.
Qed.

Lemma strlen_bytes_terminator s : nth (strlen_bytes s) s 0 = 0.
Proof.
  induction s as [| c s IH]; simpl; [reflexivity |].
  destruct (Z.eqb_spec c 0) as [-> | Hc]; [reflexivity | exact IH].
Qed.

Lemma label_at_nonzero label k :
  (k < strlen label)%nat -> label_at label k <> 0.
Proof. apply strlen_bytes_nonzero. Qed.

Lemma label_at_strlen label : label_at label (strlen label) = 0.
Proof. apply strlen_bytes_terminator. Qed.

Lemma store_length buf i v : length (store buf i v) = length buf.
Proof. unfold store. apply length_insert. Qed.

Lemma store_lookup_ne buf i j v : i <> j -> store buf i v !! j = buf !! j.
Proof. intros H. unfold store. apply list_lookup_insert_ne. exact H. Qed.

Lemma store_lookup_eq buf i v :
  (i < length buf)%nat -> store buf i v !! i = Some (u8 v).
Proof. intros H. unfold store. apply list_lookup_insert_eq. exact H. Qed.

(** The inner loop runs to [i = 11] and zeroes the positions from [i]. *)
Lemma zero_rest_spec fuel i bpb :
  (i <= 11)%nat -> (11 - i < fuel)%nat -> (82 <= length bpb)%nat ->
  exists bpb',
    zero_rest fuel i bpb = Some (11%nat, bpb') /\
    length bpb' = length bpb /\
    forall j, bpb' !! j =
      if decide (BPB_LABEL_OFFSET + i <= j < BPB_LABEL_OFFSET + 11)%nat
      then Some 0 else bpb !! j.
Proof.
  revert i bpb. induction fuel as [| fuel IH]; intros i bpb Hi Hf Hlen; [lia |].
  cbn [zero_rest]. destruct (Nat.ltb_spec i 11) as [Hlt | Hge].
  - destruct (IH (S i) (store bpb (BPB_LABEL_OFFSET + i) 0)) as (bpb' & Hz & Hl & Hj);
      [lia | lia | rewrite store_length; lia |].
    exists bpb'. split; [exact Hz |]. split; [rewrite Hl; apply store_length |].
    intros j. rewrite Hj. unfold BPB_LABEL_OFFSET in *.
    repeat case_decide; try lia; try reflexivity.
    + destruct (decide (j = (71 + i)%nat)) as [-> | Hne]; [| lia].
      rewrite store_lookup_eq by lia. reflexivity.
    + apply store_lookup_ne. lia.
  - assert (i = 11%nat) as -> by lia.
    exists bpb. split; [reflexivity |]. split; [reflexivity |].
    intros j. case_decide; [lia | reflexivity].
Qed.

(** The outer loop, entered at [i] with no terminator before [i], returns
    and leaves [field_byte] at every position from [i] on. *)
Lemma label_loop_spec label fuel i bpb :
  (i <= 11)%nat -> (i <= strlen label)%nat -> (12 - i < fuel)%nat ->
  (82 <= length bpb)%nat ->
  exists bpb',
    label_loop fuel label i bpb = Some bpb' /\
    length bpb' = length bpb /\
    forall j, bpb' !! j =
      if decide (BPB_LABEL_OFFSET + i <= j < BPB_LABEL_OFFSET + 11)%nat
      then Some (field_byte label (j - BPB_LABEL_OFFSET)) else bpb !! j.
Proof.
  revert i bpb. induction fuel as [| fuel IH]; intros i bpb Hi Hs Hf Hlen; [lia |].
  cbn [label_loop]. destruct (Nat.ltb_spec i 11) as [Hlt | Hge].
  - destruct (Z.eqb_spec (label_at label i) 0) as [Hz | Hnz].
    + (* terminator: the inner loop finishes the field *)
      assert (strlen label = i) as Hstr.
      { destruct (Nat.eq_dec (strlen label) i) as [E | E]; [exact E |].
        exfalso. apply (label_at_nonzero label i); [lia | exact Hz]. }
      destruct (zero_rest_spec fuel i (store bpb (BPB_LABEL_OFFSET + i) (label_at label i)))
        as (bpb' & Hr & Hl & Hj); [lia | lia | rewrite store_length; lia |].
      rewrite Hr. destruct fuel as [| fuel]; [lia |]. cbn [label_loop Nat.ltb Nat.leb].
      exists bpb'. split; [reflexivity |].
      split; [rewrite Hl; apply store_length |].
      intros j. rewrite Hj. unfold BPB_LABEL_OFFSET in *.
      case_decide.
      * unfold field_byte. destruct (Nat.ltb_spec (j - 71) (strlen label)); [lia | reflexivity].
      * apply store_lookup_ne. lia.
    + assert (i < strlen label)%nat as Hlt'.
      { destruct (Nat.eq_dec (strlen label) i) as [E | E]; [| lia].
        exfalso. apply Hnz. rewrite <- E. apply label_at_strlen. }
      destruct (IH (S i) (store bpb (BPB_LABEL_OFFSET + i) (label_at label i)))
        as (bpb' & Hr & Hl & Hj); [lia | lia | lia | rewrite store_length; lia |].
      exists bpb'. split; [exact Hr |].
      split; [rewrite Hl; apply store_length |].
      intros j. rewrite Hj. unfold BPB_LABEL_OFFSET in *.
      repeat case_decide; try lia; try reflexivity.
      * destruct (decide (j = (71 + i)%nat)) as [-> | Hne]; [| lia].
        rewrite store_lookup_eq by lia.
        rewrite u8_id by apply label_at_range.
        unfold field_byte. replace (71 + i - 71)%nat with i by lia.
        destruct (Nat.ltb_spec i (strlen label)); [reflexivity | lia].
      * apply store_lookup_ne. lia.
  - assert (i = 11%nat) as -> by lia.
    exists bpb. split; [reflexivity |]. split; [reflexivity |].
    intros j. case_decide; [lia | reflexivity].
Qed.

Lemma until_nul_length s : length (until_nul s) = strlen_bytes s.
Proof.
  induction s as [| c s IH]; simpl; [reflexivity |].
  destruct (c =? 0); simpl; [reflexivity | now rewrite IH].
Qed.

Lemma until_nul_lookup s k :
  (k < strlen_bytes s)%nat -> until_nul s !! k = Some (nth k s 0).
Proof.
  revert k. induction s as [| c s IH]; intros k Hk; simpl in *; [lia |].
  destruct (c =? 0); [lia |].
  destruct k as [| k]; [reflexivity |]. simpl. apply IH. lia.
Qed.

Lemma label_field_spec_length label : length (label_field_spec label) = 11%nat.
Proof.
  unfold label_field_spec. rewrite length_app, length_replicate, length_take. lia.
Qed.

Lemma label_field_spec_lookup label k :
  (k < 11)%nat -> label_field_spec label !! k = Some (field_byte label k).
Proof.
  intros Hk. unfold label_field_spec, field_byte, strlen, label_at.
  set (bs := label_bytes label).
  pose proof (until_nul_length bs) as Hlen.
  destruct (Nat.ltb_spec k (strlen_bytes bs)) as [Hlt | Hge].
  - rewrite lookup_app_l by (rewrite length_take; lia).
    rewrite lookup_take_lt by lia. apply until_nul_lookup. exact Hlt.
  - rewrite lookup_app_r by (rewrite length_take; lia).
    apply lookup_replicate_2. rewrite length_take. lia.
Qed.

(** A buffer whose label positions hold [field_byte] has the specified
    label field. *)
Lemma label_field_of_bytes label (bpb : list Z) :
  (82 <= length bpb)%nat ->
  (forall k, (k < 11)%nat ->
     bpb !! (BPB_LABEL_OFFSET + k)%nat = Some (field_byte label k)) ->
  label_field bpb = label_field_spec label.
Proof.
  intros Hlen Hb. apply list_eq. intros k. unfold label_field.
  destruct (Nat.lt_ge_cases k 11) as [Hk | Hk].
  - rewrite lookup_take_lt by exact Hk. rewrite lookup_drop.
    rewrite Hb by exact Hk. symmetry. apply label_field_spec_lookup. exact Hk.
  - rewrite lookup_take_ge by exact Hk. symmetry.
    apply lookup_ge_None_2. rewrite label_field_spec_length. exact Hk.
Qed.

(** A label longer than the field: the field is its first 11 bytes. *)
Lemma label_field_spec_long label :
  (11 < strlen label)%nat ->
  label_field_spec label = take 11 (label_bytes label).
Proof.
  intros Hlong. apply list_eq. intros k.
  destruct (Nat.lt_ge_cases k 11) as [Hk | Hk].
  - rewrite label_field_spec_lookup by exact Hk.
    unfold field_byte. destruct (Nat.ltb_spec k (strlen label)); [| lia].
    rewrite lookup_take_lt by exact Hk. unfold label_at. symmetry.
    destruct (nth_lookup_or_length (label_bytes label) k 0) as [E | E]; [exact E |].
    exfalso. unfold strlen in *.
    pose proof (until_nul_length (label_bytes label)) as Hl.
    assert (length (until_nul (label_bytes label)) <= length (label_bytes label))%nat.
    { clear. induction (label_bytes label) as [| c s IH]; simpl; [lia |].
      destruct (c =? 0); simpl; lia. }
    lia.
  - rewrite lookup_take_ge by exact Hk.
    apply lookup_ge_None_2. rewrite label_field_spec_length. exact Hk.
Qed.

(** ** The write phase *)

Ltac run_monad :=
  cbv [write_phase SEEKNWRITE sync emit return_ fault_ mbind M_bind bind
       mret M_ret pure r_printf perror trace nwrites finish call].

Lemma write_phase_ok dev fd bpb fatsz t :
  length bpb = 512%nat ->
  (forall k, (k < 6)%nat -> write_ok dev k = true) ->
  write_phase dev fd bpb fatsz (State t 0) =
  (Return 0,
   State (t ++ map (write_event fd true) (six_writes bpb fatsz) ++ [EvSync]) 6).
Proof.
  intros Hlen Hok. run_monad.
  rewrite !Hok by lia.
  rewrite (take_ge bpb 512) by lia.
  change (take 512 fat32_fsi) with fat32_fsi.
  change (take 12 fat32_fat) with fat32_fat.
  rewrite <- !app_assoc. reflexivity.
Qed.

Lemma write_phase_fail dev fd bpb fatsz t k :
  length bpb = 512%nat -> (k < 6)%nat ->
  (forall j, (j < k)%nat -> write_ok dev j = true) ->
  write_ok dev k = false ->
  write_phase dev fd bpb fatsz (State t 0) =
  (Return (-1),
   State (t ++ map (write_event fd true) (take k (six_writes bpb fatsz))
            ++ map (write_event fd false)
                 (take 1 (drop k (six_writes bpb fatsz))))
         (S k)).
Proof.
  intros Hlen Hk Hok Hfail.
  do 6 (destruct k as [| k];
        [ run_monad; rewrite ?Hok by lia; rewrite Hfail;
          rewrite ?(take_ge bpb 512) by lia;
          change (take 512 fat32_fsi) with fat32_fsi;
          change (take 12 fat32_fat) with fat32_fat;
          rewrite <- ?app_assoc; reflexivity | ]).
  lia.
Qed.

(** Whatever the device answers, the first event of the write phase is the
    write of the boot sector at offset 0. *)
Lemma write_phase_first dev fd bpb fatsz t :
  length bpb = 512%nat ->
  exists r rest n,
    write_phase dev fd bpb fatsz (State t 0) =
    (Return r, State (t ++ EvWrite fd 0 bpb (write_ok dev 0) :: rest) n).
Proof.
  intros Hlen.
  destruct (write_ok dev 0) eqn:H0.
  2:{ eexists _, _, _. rewrite (write_phase_fail dev fd bpb fatsz t 0) by (lia || auto).
      reflexivity. }
  destruct (write_ok dev 1) eqn:H1.
  2:{ eexists _, _, _. rewrite (write_phase_fail dev fd bpb fatsz t 1);
        [reflexivity | lia | lia | | exact H1].
      intros j Hj. assert (j = 0%nat) as -> by lia. exact H0. }
  run_monad. rewrite H0, H1. rewrite (take_ge bpb 512) by lia.
  repeat match goal with
         | |- context [write_ok dev ?k] => destruct (write_ok dev k)
         end;
    rewrite <- ?app_assoc; eexists _, _, _; reflexivity.
Qed.

(** ** From the call to the write phase *)

Lemma store_le32_length buf off v :
  length (store_le32 buf off v) = length buf.
Proof. unfold store_le32. now rewrite !store_length. Qed.

Lemma geometry_bpb_length spc tot fatsz :
  length (geometry_bpb spc tot fatsz) = 512%nat.
Proof.
  unfold geometry_bpb. now rewrite !store_le32_length, store_length.
Qed.

Lemma format_fat32_run dev fd cs label c spc logs :
  blkgetsize dev = Some c -> c <= UINT32_MAX - 1 ->
  select_SecPerClus cs c (State [] 0) = (Next spc, State logs 0) ->
  let fatsz := compute_FATSz32 (u32 c) spc in
  exists bpb,
    is_patched_bpb bpb label spc (u32 c) fatsz /\
    format_fat32 dev fd cs label =
    finish (write_phase dev fd bpb fatsz
              (State (prelude logs fd label spc (u32 c) fatsz) 0)).
Proof.
  intros Hblk Hc Hsel fatsz.
  destruct (label_loop_spec label 16 0 (geometry_bpb spc (u32 c) fatsz))
    as (bpb & Hloop & Hlen & Hj); [lia | lia | lia | rewrite geometry_bpb_length; lia |].
  exists bpb. split.
  { split; [now rewrite Hlen, geometry_bpb_length |].
    intros j. rewrite Hj. unfold BPB_LABEL_OFFSET. simpl. reflexivity. }
  unfold format_fat32, call, format_fat32_body. rewrite Hblk.
  destruct (Z.gtb_spec c (UINT32_MAX - 1)) as [Hgt | _]; [lia |].
  cbv [mbind M_bind bind]. rewrite Hsel.
  cbv [r_printf emit trace nwrites].
  fold fatsz.
  unfold patch_label.
  change (store_le32 _ BPB_FAT_SZ_32_OFFSET fatsz) with (geometry_bpb spc (u32 c) fatsz).
  rewrite Hloop. unfold prelude, label_logs.
  destruct (11 <? strlen label)%nat; cbv [mret M_ret pure emit trace nwrites];
    rewrite <- ?app_assoc; reflexivity.
Qed.

(** ** Little-endian fields *)

Lemma byte_mask v k : 0 <= k -> u8 (Z.land (Z.shiftr v k) 0xFF) = (v / 2 ^ k) mod 256.
Proof.
  intros Hk. change 0xFF with (Z.ones 8).
  rewrite Z.land_ones by lia. rewrite Z.shiftr_div_pow2 by exact Hk.
  unfold u8. change (2 ^ 8) with 256. apply Z.mod_mod. lia.
Qed.

Lemma byte_mask0 v : u8 (Z.land v 0xFF) = v mod 256.
Proof.
  change 0xFF with (Z.ones 8). rewrite Z.land_ones by lia.
  unfold u8. change (2 ^ 8) with 256. apply Z.mod_mod. lia.
Qed.

Lemma store_le32_lookup_ne buf off v j :
  (j < off \/ off + 4 <= j)%nat -> store_le32 buf off v !! j = buf !! j.
Proof.
  intros Hj. unfold store_le32. rewrite !store_lookup_ne by lia. reflexivity.
Qed.

Lemma store_le32_bytes buf off v :
  (off + 3 < length buf)%nat ->
  store_le32 buf off v !! off = Some (v mod 256) /\
  store_le32 buf off v !! (off + 1)%nat = Some ((v / 2 ^ 8) mod 256) /\
  store_le32 buf off v !! (off + 2)%nat = Some ((v / 2 ^ 16) mod 256) /\
  store_le32 buf off v !! (off + 3)%nat = Some ((v / 2 ^ 24) mod 256).
Proof.
  intros Hlen. unfold store_le32. repeat split.
  - rewrite store_lookup_eq by (rewrite !store_length; lia). now rewrite byte_mask0.
  - rewrite store_lookup_ne by lia.
    rewrite store_lookup_eq by (rewrite !store_length; lia). now rewrite byte_mask.
  - rewrite !store_lookup_ne by lia.
    rewrite store_lookup_eq by (rewrite !store_length; lia). now rewrite byte_mask.
  - rewrite !store_lookup_ne by lia.
    rewrite store_lookup_eq by lia. now rewrite byte_mask.
Qed.

Lemma le32_recompose v :
  0 <= v < 2 ^ 32 ->
  v mod 256 + 2 ^ 8 * ((v / 2 ^ 8) mod 256)
  + 2 ^ 16 * ((v / 2 ^ 16) mod 256) + 2 ^ 24 * ((v / 2 ^ 24) mod 256) = v.
Proof.
  intros Hv.
  change (2 ^ 8) with 256. change (2 ^ 16) with 65536.
  change (2 ^ 24) with 16777216. change (2 ^ 32) with 4294967296 in Hv.
  Z.div_mod_to_equations. lia.
Qed.

(** A 32-bit field is read back from any buffer that agrees with the
    stored bytes on the four positions of the field. *)
Lemma load_le32_of_bytes (bpb buf : list Z) off v :
  0 <= v < 2 ^ 32 -> (off + 3 < length buf)%nat ->
  (forall k, (k < 4)%nat ->
     bpb !! (off + k)%nat = store_le32 buf off v !! (off + k)%nat) ->
  load_le32 bpb off = v.
Proof.
  intros Hv Hlen Hb.
  destruct (store_le32_bytes buf off v Hlen) as (B0 & B1 & B2 & B3).
  unfold load_le32.
  assert (bpb !! off = Some (v mod 256)) as E0.
  { rewrite <- B0. specialize (Hb 0%nat ltac:(lia)).
    rewrite Nat.add_0_r in Hb. exact Hb. }
  rewrite (nth_lookup_Some bpb off 0 _ E0).
  rewrite (nth_lookup_Some bpb (off + 1) 0 _ ltac:(rewrite <- B1; apply Hb; lia)).
  rewrite (nth_lookup_Some bpb (off + 2) 0 _ ltac:(rewrite <- B2; apply Hb; lia)).
  rewrite (nth_lookup_Some bpb (off + 3) 0 _ ltac:(rewrite <- B3; apply Hb; lia)).
  apply le32_recompose. exact Hv.
Qed.

(** ** Geometry selection *)

Lemma select_explicit cs c s :
  cs <> BS_AUTO ->
  exists spc,
    select_SecPerClus cs c s = (Next spc, s) /\
    In (cs, spc)
       [ (BS_512B, 1); (BS_1024B, 2); (BS_2048B, 4); (BS_4096B, 8);
         (BS_8192B, 16); (BS_16384B, 32); (BS_32768B, 64) ].
Proof.
  intros Hcs. destruct cs; try congruence;
    eexists; (split; [reflexivity | simpl; tauto]).
Qed.

(** The automatic policy on a capacity that passed the too-large check and
    is not below 66600: a value is always chosen, so the missing final
    [else] of the chain is never taken. *)
Lemma select_auto c :
  66600 <= c <= UINT32_MAX - 1 ->
  exists spc,
    select_SecPerClus BS_AUTO c (State [] 0) = (Next spc, State [autoset_log] 0) /\
    (c < 532480 -> spc = 1) /\
    (532480 <= c < 16777216 -> spc = 8) /\
    (16777216 <= c < 33554432 -> spc = 16) /\
    (33554432 <= c < 67108864 -> spc = 32) /\
    (67108864 <= c -> spc = 64).
Proof.
  intros Hc. unfold UINT32_MAX in Hc. unfold select_SecPerClus. run_monad.
  destruct (Z.ltb_spec c 66600); [lia |].
  destruct (Z.ltb_spec c 532480); [eexists; split; [reflexivity | lia] |].
  destruct (Z.ltb_spec c 16777216); [eexists; split; [reflexivity | lia] |].
  destruct (Z.ltb_spec c 33554432); [eexists; split; [reflexivity | lia] |].
  destruct (Z.ltb_spec c 67108864); [eexists; split; [reflexivity | lia] |].
  destruct (Z.ltb_spec c 0xFFFFFFFF); [eexists; split; [reflexivity | lia] |].
  lia.
Qed.

Lemma select_reaches cs c :
  c <= UINT32_MAX - 1 -> (cs = BS_AUTO -> 66600 <= c) ->
  exists spc logs,
    select_SecPerClus cs c (State [] 0) = (Next spc, State logs 0) /\
    forallb is_printf logs = true /\
    In spc [1; 2; 4; 8; 16; 32; 64].
Proof.
  intros Hc Hauto. destruct (decide (cs = BS_AUTO)) as [-> | Hcs].
  - destruct (select_auto c) as (spc & Hsel & H1 & H8 & H16 & H32 & H64);
      [split; [auto | exact Hc] |].
    exists spc, [autoset_log]. split; [exact Hsel |]. split; [reflexivity |].
    simpl. lia.
  - destruct (select_explicit cs c (State [] 0) Hcs) as (spc & Hsel & Hin).
    exists spc, []. split; [exact Hsel |]. split; [reflexivity |].
    simpl in Hin |- *.
    repeat (destruct Hin as [Hin | Hin]; [inversion Hin; tauto |]). tauto.
Qed.

Lemma writes_of_app t1 t2 : writes_of (t1 ++ t2) = writes_of t1 ++ writes_of t2.
Proof. unfold writes_of. apply omap_app. Qed.

Lemma writes_of_printf t : forallb is_printf t = true -> writes_of t = [].
Proof.
  induction t as [| e t IH]; [reflexivity |]. simpl.
  destruct e; simpl; try discriminate. exact IH.
Qed.

Lemma writes_of_prelude logs fd label spc tot fatsz :
  forallb is_printf logs = true ->
  writes_of (prelude logs fd label spc tot fatsz) = [].
Proof.
  intros Hlogs. unfold prelude. rewrite !writes_of_app.
  rewrite (writes_of_printf logs Hlogs).
  unfold label_logs. destruct (11 <? strlen label)%nat; reflexivity.
Qed.

(** Every input that gets past the capacity checks reaches the write phase
    with a chosen sectors-per-cluster value and a patched boot sector, and
    the first write carries that boot sector. *)
Lemma format_fat32_reaches dev fd cs label c :
  reaches_write_phase dev cs c ->
  exists spc logs bpb,
    select_SecPerClus cs c (State [] 0) = (Next spc, State logs 0) /\
    forallb is_printf logs = true /\
    In spc [1; 2; 4; 8; 16; 32; 64] /\
    is_patched_bpb bpb label spc (u32 c) (compute_FATSz32 (u32 c) spc) /\
    format_fat32 dev fd cs label =
      finish (write_phase dev fd bpb (compute_FATSz32 (u32 c) spc)
                (State (prelude logs fd label spc (u32 c)
                          (compute_FATSz32 (u32 c) spc)) 0)) /\
    written_bpb (snd (format_fat32 dev fd cs label)) = Some bpb.
Proof.
  intros (Hblk & Hc & Hauto).
  destruct (select_reaches cs c Hc Hauto) as (spc & logs & Hsel & Hlogs & Hin).
  destruct (format_fat32_run dev fd cs label c spc logs Hblk Hc Hsel)
    as (bpb & Hbpb & Hrun).
  exists spc, logs, bpb. repeat (split; [assumption |]). rewrite Hrun.
  destruct (write_phase_first dev fd bpb (compute_FATSz32 (u32 c) spc)
              (prelude logs fd label spc (u32 c) (compute_FATSz32 (u32 c) spc))
              (proj1 Hbpb)) as (r & rest & n & Hw).
  rewrite Hw. unfold finish, written_bpb. cbn [snd trace].
  rewrite writes_of_app, writes_of_prelude by exact Hlogs. reflexivity.
Qed.

(** ** Results and writes of a run that reaches the write phase *)

(** Either all six writes succeed or there is a first one that fails. *)
Lemma first_failure dev :
  all_writes_ok dev \/
  exists k, (k < 6)%nat /\
    (forall j, (j < k)%nat -> write_ok dev j = true) /\
    write_ok dev k = false.
Proof.
  destruct (write_ok dev 0) eqn:H0; [| right; exists 0%nat; repeat split; [lia | lia | exact H0]].
  destruct (write_ok dev 1) eqn:H1; [| right; exists 1%nat; repeat split; [lia | | exact H1];
    intros j Hj; assert (j = 0)%nat as -> by lia; exact H0].
  destruct (write_ok dev 2) eqn:H2; [| right; exists 2%nat; repeat split; [lia | | exact H2];
    intros j Hj; do 2 (destruct j as [| j]; [assumption |]); lia].
  destruct (write_ok dev 3) eqn:H3; [| right; exists 3%nat; repeat split; [lia | | exact H3];
    intros j Hj; do 3 (destruct j as [| j]; [assumption |]); lia].
  destruct (write_ok dev 4) eqn:H4; [| right; exists 4%nat; repeat split; [lia | | exact H4];
    intros j Hj; do 4 (destruct j as [| j]; [assumption |]); lia].
  destruct (write_ok dev 5) eqn:H5; [| right; exists 5%nat; repeat split; [lia | | exact H5];
    intros j Hj; do 5 (destruct j as [| j]; [assumption |]); lia].
  left. intros k Hk. do 6 (destruct k as [| k]; [assumption |]). lia.
Qed.

Lemma writes_of_write_events fd ok ws :
  writes_of (map (write_event fd ok) ws) = ws.
Proof.
  induction ws as [| [off data] ws IH]; [reflexivity |].
  change (writes_of (map (write_event fd ok) ((off, data) :: ws)))
    with ((off, data) :: writes_of (map (write_event fd ok) ws)).
  now rewrite IH.
Qed.

Lemma take_one_more {A} (l : list A) k :
  take k l ++ take 1 (drop k l) = take (S k) l.
Proof.
  revert k. induction l as [| x l IH]; intros [| k]; simpl;
    rewrite ?IH; reflexivity.
Qed.

(** A run in which every write succeeds: it returns 0, and its events are
    the prelude, the six writes and the [sync()]. *)
Lemma format_fat32_success dev fd cs label c :
  reaches_write_phase dev cs c -> all_writes_ok dev ->
  exists spc logs bpb,
    select_SecPerClus cs c (State [] 0) = (Next spc, State logs 0) /\
    In spc [1; 2; 4; 8; 16; 32; 64] /\
    is_patched_bpb bpb label spc (u32 c) (compute_FATSz32 (u32 c) spc) /\
    written_bpb (snd (format_fat32 dev fd cs label)) = Some bpb /\
    format_fat32 dev fd cs label =
      (Some 0,
       prelude logs fd label spc (u32 c) (compute_FATSz32 (u32 c) spc)
       ++ map (write_event fd true)
            (six_writes bpb (compute_FATSz32 (u32 c) spc))
       ++ [EvSync]) /\
    writes_of (snd (format_fat32 dev fd cs label)) =
      six_writes bpb (compute_FATSz32 (u32 c) spc).
Proof.
  intros Hreach Hok.
  destruct (format_fat32_reaches dev fd cs label c Hreach)
    as (spc & logs & bpb & Hsel & Hlogs & Hin & Hbpb & Hrun & Hw).
  exists spc, logs, bpb. repeat (split; [assumption |]).
  rewrite Hrun, write_phase_ok by (apply Hbpb || exact Hok).
  split; [reflexivity |]. unfold finish. cbn [snd trace].
  rewrite !writes_of_app, writes_of_prelude by exact Hlogs.
  rewrite writes_of_write_events. apply app_nil_r.
Qed.

(** A run whose [k]-th write is the first to fail: it returns -1, the
    failed write is the last event, and no [sync()] takes place. *)
Lemma format_fat32_failure dev fd cs label c k :
  reaches_write_phase dev cs c -> (k < 6)%nat ->
  (forall j, (j < k)%nat -> write_ok dev j = true) ->
  write_ok dev k = false ->
  exists spc logs bpb,
    select_SecPerClus cs c (State [] 0) = (Next spc, State logs 0) /\
    is_patched_bpb bpb label spc (u32 c) (compute_FATSz32 (u32 c) spc) /\
    written_bpb (snd (format_fat32 dev fd cs label)) = Some bpb /\
    format_fat32 dev fd cs label =
      (Some (-1),
       prelude logs fd label spc (u32 c) (compute_FATSz32 (u32 c) spc)
       ++ map (write_event fd true)
            (take k (six_writes bpb (compute_FATSz32 (u32 c) spc)))
       ++ map (write_event fd false)
            (take 1 (drop k (six_writes bpb (compute_FATSz32 (u32 c) spc))))) /\
    writes_of (snd (format_fat32 dev fd cs label)) =
      take (S k) (six_writes bpb (compute_FATSz32 (u32 c) spc)).
Proof.
  intros Hreach Hk Hok Hfail.
  destruct (format_fat32_reaches dev fd cs label c Hreach)
    as (spc & logs & bpb & Hsel & Hlogs & Hin & Hbpb & Hrun & Hw).
  exists spc, logs, bpb. repeat (split; [assumption |]).
  rewrite Hrun, (write_phase_fail dev fd bpb _ _ k) by (apply Hbpb || assumption).
  split; [reflexivity |]. unfold finish. cbn [snd trace].
  rewrite !writes_of_app, writes_of_prelude by exact Hlogs.
  rewrite !writes_of_write_events. apply take_one_more.
Qed.

(** The value returned once the write phase is reached depends on the
    write outcomes only. *)
Lemma format_fat32_result dev fd cs label c :
  reaches_write_phase dev cs c ->
  fst (format_fat32 dev fd cs label) =
  Some (if forallb (write_ok dev) (seq 0 6) then 0 else -1).
Proof.
  intros Hreach. destruct (first_failure dev) as [Hok | (k & Hk & Hpre & Hfail)].
  - destruct (format_fat32_success dev fd cs label c Hreach Hok)
      as (spc & logs & bpb & _ & _ & _ & _ & Hrun & _).
    rewrite Hrun. simpl. rewrite !Hok by lia. reflexivity.
  - destruct (format_fat32_failure dev fd cs label c k Hreach Hk Hpre Hfail)
      as (spc & logs & bpb & _ & _ & _ & Hrun & _).
    rewrite Hrun. simpl.
    do 6 (destruct k as [| k]; [rewrite ?Hpre by lia; rewrite Hfail; simpl;
                                rewrite ?andb_false_r; reflexivity |]).
    lia.
Qed.

Lemma format_fat32_too_large dev fd cs label c :
  blkgetsize dev = Some c -> UINT32_MAX - 1 < c ->
  format_fat32 dev fd cs label = (Some (-1), [too_big_log]).
Proof.
  intros Hblk Hc. unfold format_fat32, format_fat32_body. rewrite Hblk.
  destruct (Z.gtb_spec c (UINT32_MAX - 1)) as [_ | Hle]; [reflexivity | lia].
Qed.

Lemma format_fat32_too_small dev fd label c :
  blkgetsize dev = Some c -> c < 66600 ->
  format_fat32 dev fd BS_AUTO label = (Some (-1), [autoset_log; too_small_log]).
Proof.
  intros Hblk Hc. unfold format_fat32, format_fat32_body. rewrite Hblk.
  destruct (Z.gtb_spec c (UINT32_MAX - 1)) as [Hgt | _];
    [unfold UINT32_MAX in Hgt; lia |].
  unfold select_SecPerClus, call. run_monad.
  destruct (Z.ltb_spec c 66600) as [_ | Hge]; [reflexivity | lia].
Qed.

(** The call always returns, with 0 or -1: the label loops never exhaust
    their fuel and [BPB_SecPerClus] is never read without a value. *)
Lemma format_fat32_returns dev fd cs label :
  fst (format_fat32 dev fd cs label) = Some 0 \/
  fst (format_fat32 dev fd cs label) = Some (-1).
Proof.
  destruct (blkgetsize dev) as [c |] eqn:Hblk.
  2:{ right. unfold format_fat32, format_fat32_body. rewrite Hblk. reflexivity. }
  destruct (Z.lt_ge_cases (UINT32_MAX - 1) c) as [Hbig | Hfit].
  { right. now rewrite (format_fat32_too_large dev fd cs label c Hblk Hbig). }
  destruct (decide (cs = BS_AUTO /\ c < 66600)) as [[-> Hsmall] | Hgo].
  { right. now rewrite (format_fat32_too_small dev fd label c Hblk Hsmall). }
  rewrite (format_fat32_result dev fd cs label c).
  - destruct (forallb (write_ok dev) (seq 0 6)); [left | right]; reflexivity.
  - split; [exact Hblk |]. split; [exact Hfit |]. intros ->.
    destruct (Z.lt_ge_cases c 66600) as [Hlt | Hge]; [| exact Hge].
    exfalso. apply Hgo. split; [reflexivity | exact Hlt].
Qed.

(** ** The fields of the patched boot sector *)

Lemma geometry_bpb_frame spc tot fatsz j :
  j <> BPB_SEC_PER_CLUS_OFFSET ->
  ~ (BPB_TOT_SEC_32_OFFSET <= j < BPB_TOT_SEC_32_OFFSET + 4)%nat ->
  ~ (BPB_FAT_SZ_32_OFFSET <= j < BPB_FAT_SZ_32_OFFSET + 4)%nat ->
  geometry_bpb spc tot fatsz !! j = fat32_bpb !! j.
Proof.
  intros H13 H32 H36. unfold geometry_bpb.
  rewrite !store_le32_lookup_ne by lia. apply store_lookup_ne. congruence.
Qed.

Lemma patched_bpb_frame bpb label spc tot fatsz j :
  is_patched_bpb bpb label spc tot fatsz ->
  j <> 13%nat -> ~ (32 <= j <= 35)%nat -> ~ (36 <= j <= 39)%nat ->
  ~ (71 <= j <= 81)%nat ->
  bpb !! j = fat32_bpb !! j.
Proof.
  intros [_ Hb] H13 H32 H36 H71. rewrite Hb. unfold BPB_LABEL_OFFSET.
  case_decide; [lia |].
  apply geometry_bpb_frame;
    unfold BPB_SEC_PER_CLUS_OFFSET, BPB_TOT_SEC_32_OFFSET, BPB_FAT_SZ_32_OFFSET; lia.
Qed.

Lemma patched_bpb_SecPerClus bpb label spc tot fatsz :
  is_patched_bpb bpb label spc tot fatsz ->
  bpb !! BPB_SEC_PER_CLUS_OFFSET = Some (u8 spc).
Proof.
  intros [_ Hb]. rewrite Hb. unfold BPB_LABEL_OFFSET, BPB_SEC_PER_CLUS_OFFSET.
  case_decide; [lia |]. unfold geometry_bpb.
  rewrite !store_le32_lookup_ne
    by (unfold BPB_TOT_SEC_32_OFFSET, BPB_FAT_SZ_32_OFFSET; lia).
  apply store_lookup_eq. rewrite fat32_bpb_size.
  unfold BPB_SEC_PER_CLUS_OFFSET. lia.
Qed.

Lemma patched_bpb_TotSec32 bpb label spc tot fatsz :
  is_patched_bpb bpb label spc tot fatsz -> 0 <= tot < 2 ^ 32 ->
  load_le32 bpb BPB_TOT_SEC_32_OFFSET = tot.
Proof.
  intros [_ Hb] Htot.
  apply (load_le32_of_bytes bpb (store fat32_bpb BPB_SEC_PER_CLUS_OFFSET spc));
    [exact Htot | rewrite store_length, fat32_bpb_size; unfold BPB_TOT_SEC_32_OFFSET; lia |].
  intros k Hk. rewrite Hb. unfold BPB_LABEL_OFFSET, BPB_TOT_SEC_32_OFFSET.
  case_decide; [lia |]. unfold geometry_bpb.
  apply store_le32_lookup_ne.
  unfold BPB_TOT_SEC_32_OFFSET, BPB_FAT_SZ_32_OFFSET. lia.
Qed.

Lemma patched_bpb_FATSz32 bpb label spc tot fatsz :
  is_patched_bpb bpb label spc tot fatsz -> 0 <= fatsz < 2 ^ 32 ->
  load_le32 bpb BPB_FAT_SZ_32_OFFSET = fatsz.
Proof.
  intros [_ Hb] Hf.
  apply (load_le32_of_bytes bpb
           (store_le32 (store fat32_bpb BPB_SEC_PER_CLUS_OFFSET spc)
              BPB_TOT_SEC_32_OFFSET tot));
    [exact Hf | rewrite store_le32_length, store_length, fat32_bpb_size; unfold BPB_FAT_SZ_32_OFFSET; lia |].
  intros k Hk. rewrite Hb. unfold BPB_LABEL_OFFSET, BPB_FAT_SZ_32_OFFSET.
  case_decide; [lia |]. reflexivity.
Qed.

Lemma patched_bpb_label bpb label spc tot fatsz :
  is_patched_bpb bpb label spc tot fatsz ->
  label_field bpb = label_field_spec label.
Proof.
  intros [Hlen Hb]. apply label_field_of_bytes; [lia |].
  intros k Hk. rewrite Hb. case_decide; [| lia].
  do 2 f_equal. lia.
Qed.

Lemma compute_FATSz32_range tot spc : 0 <= compute_FATSz32 tot spc < 2 ^ 32.
Proof. unfold compute_FATSz32. apply u32_range. Qed.

Lemma In_spc_u8 spc : In spc [1; 2; 4; 8; 16; 32; 64] -> u8 spc = spc.
Proof.
  simpl. intros H. apply u8_id. lia.
Qed.

(** The geometry a run writes is the geometry it computed. *)
Lemma format_fat32_geometry dev fd cs label c :
  reaches_write_phase dev cs c ->
  exists spc logs,
    select_SecPerClus cs c (State [] 0) = (Next spc, State logs 0) /\
    In spc [1; 2; 4; 8; 16; 32; 64] /\
    written_SecPerClus (snd (format_fat32 dev fd cs label)) = Some spc /\
    written_TotSec32 (snd (format_fat32 dev fd cs label)) = Some (u32 c) /\
    written_FATSz32 (snd (format_fat32 dev fd cs label)) =
      Some (compute_FATSz32 (u32 c) spc).
Proof.
  intros Hreach.
  destruct (format_fat32_reaches dev fd cs label c Hreach)
    as (spc & logs & bpb & Hsel & Hlogs & Hin & Hbpb & Hrun & Hw).
  exists spc, logs. split; [exact Hsel |]. split; [exact Hin |].
  unfold written_SecPerClus, written_TotSec32, written_FATSz32. rewrite Hw.
  rewrite (patched_bpb_SecPerClus _ _ _ _ _ Hbpb), (In_spc_u8 _ Hin).
  rewrite (patched_bpb_TotSec32 _ _ _ _ _ Hbpb) by apply u32_range.
  rewrite (patched_bpb_FATSz32 _ _ _ _ _ Hbpb) by apply compute_FATSz32_range.
  auto.
Qed.

(** ** Capacity checks *)

(** C9: when the capacity ioctl fails, the call returns -1 after
    [perror("ioctl")] and nothing else happens: no geometry is computed or
    logged and no write is issued, whatever the cluster size and label. *)
Theorem C9_capacity_query_failed dev fd cs label :
  blkgetsize dev = None ->
  format_fat32 dev fd cs label = (Some (-1), [EvPerror "ioctl"]) /\
  writes_of (snd (format_fat32 dev fd cs label)) = [].
Proof.
  intros Hblk. unfold format_fat32, format_fat32_body. rewrite Hblk.
  split; reflexivity.
Qed.

Lemma C9_capacity_query_failed_witness :
  format_fat32 (Device None (fun _ => true) true) 3 BS_AUTO "TEST"
    = (Some (-1), [EvPerror "ioctl"]) /\
  writes_of (snd (format_fat32 (Device None (fun _ => true) true) 3 BS_AUTO "TEST")) = [].
Proof.
  apply (C9_capacity_query_failed (Device None (fun _ => true) true) 3 BS_AUTO "TEST").
  reflexivity.
Defined.

(** C5: a capacity above 2^32 - 2 makes the call return -1 after the
    "Volume to big" diagnostic under every cluster-size policy; a capacity
    below 66600 under the automatic policy makes it return -1 after the
    "Volume is too small" diagnostic; neither run issues a write. *)
Theorem C5_capacity_rejected dev fd cs label c :
  blkgetsize dev = Some c ->
  (2 ^ 32 - 2 < c ->
     format_fat32 dev fd cs label = (Some (-1), [too_big_log]) /\
     writes_of (snd (format_fat32 dev fd cs label)) = []) /\
  (c < 66600 ->
     format_fat32 dev fd BS_AUTO label
       = (Some (-1), [autoset_log; too_small_log]) /\
     writes_of (snd (format_fat32 dev fd BS_AUTO label)) = []).
Proof.
  intros Hblk. split; intros Hc.
  - rewrite (format_fat32_too_large dev fd cs label c Hblk)
      by (unfold UINT32_MAX; lia).
    split; reflexivity.
  - rewrite (format_fat32_too_small dev fd label c Hblk Hc).
    split; reflexivity.
Qed.

Lemma C5_capacity_rejected_witness :
  (format_fat32 (good_dev 5000000000) 3 BS_4096B "TEST"
     = (Some (-1), [too_big_log]) /\
   writes_of (snd (format_fat32 (good_dev 5000000000) 3 BS_4096B "TEST")) = []) /\
  (format_fat32 (good_dev 50000) 3 BS_AUTO "TEST"
     = (Some (-1), [autoset_log; too_small_log]) /\
   writes_of (snd (format_fat32 (good_dev 50000) 3 BS_AUTO "TEST")) = []).
Proof.
  split.
  - apply (C5_capacity_rejected (good_dev 5000000000) 3 BS_4096B "TEST" 5000000000);
      [reflexivity | lia].
  - apply (C5_capacity_rejected (good_dev 50000) 3 BS_AUTO "TEST" 50000);
      [reflexivity | lia].
Defined.

(** ** Automatic cluster size *)

(** C2: under the automatic policy, for every capacity that passes the
    too-large check, the sectors-per-cluster byte written to the boot
    sector is 1, 8, 16, 32 or 64 according to the half-open capacity
    range, and it is the value of the first threshold, in ascending order,
    that the capacity lies below. *)
Theorem C2_auto_cluster_size dev fd label c :
  blkgetsize dev = Some c -> c <= 2 ^ 32 - 2 ->
  let t := snd (format_fat32 dev fd BS_AUTO label) in
  (66600 <= c < 532480 -> written_SecPerClus t = Some 1) /\
  (532480 <= c < 16777216 -> written_SecPerClus t = Some 8) /\
  (16777216 <= c < 33554432 -> written_SecPerClus t = Some 16) /\
  (33554432 <= c < 67108864 -> written_SecPerClus t = Some 32) /\
  (67108864 <= c < 0xFFFFFFFF -> written_SecPerClus t = Some 64) /\
  (66600 <= c -> first_match c auto_thresholds = Some (written_SecPerClus t)).
Proof.
  intros Hblk Hc t.
  destruct (Z.lt_ge_cases c 66600) as [Hlt | Hge]; [repeat split; intros; lia |].
  assert (reaches_write_phase dev BS_AUTO c) as Hreach.
  { split; [exact Hblk |]. split; [unfold UINT32_MAX; lia | intros _; exact Hge]. }
  destruct (format_fat32_geometry dev fd BS_AUTO label c Hreach)
    as (spc & logs & Hsel & _ & Hspc & _).
  destruct (select_auto c) as (spc' & Hsel' & H1 & H8 & H16 & H32 & H64);
    [unfold UINT32_MAX; lia |].
  rewrite Hsel in Hsel'. injection Hsel' as <- _.
  subst t. rewrite Hspc.
  repeat split; intros Hr; try (f_equal; lia).
  unfold auto_thresholds, first_match.
  destruct (Z.ltb_spec c 66600); [lia |].
  destruct (Z.ltb_spec c 532480); [rewrite H1 by lia; reflexivity |].
  destruct (Z.ltb_spec c 16777216); [rewrite H8 by lia; reflexivity |].
  destruct (Z.ltb_spec c 33554432); [rewrite H16 by lia; reflexivity |].
  destruct (Z.ltb_spec c 67108864); [rewrite H32 by lia; reflexivity |].
  destruct (Z.ltb_spec c 0xFFFFFFFF); [rewrite H64 by lia; reflexivity |].
  lia.
Qed.

Lemma C2_auto_cluster_size_witness :
  written_SecPerClus (snd (format_fat32 (good_dev 20000000) 3 BS_AUTO "TEST"))
    = Some 16.
Proof.
  apply (C2_auto_cluster_size (good_dev 20000000) 3 "TEST" 20000000);
    [reflexivity | lia | lia].
Defined.

(** ** FAT size *)

Lemma compute_FATSz32_spec tot spc :
  compute_FATSz32 tot spc = FATSz32_spec tot spc.
Proof.
  unfold compute_FATSz32, FATSz32_spec, BPB_ResvdSecCnt, BPB_NumFATs, u32.
  rewrite (Zplus_mod_idemp_l (256 * spc) 2).
  set (e := ((256 * spc + 2) mod 2 ^ 32 / 2) mod 2 ^ 32).
  set (usable := (tot - 32) mod 2 ^ 32).
  rewrite (Zplus_mod_idemp_r (e - 1) usable).
  rewrite (Zminus_mod_idemp_l (usable + e) 1).
  do 3 f_equal. lia.
Qed.

(** Without wrap-around the computation is the ceiling division. *)
Lemma compute_FATSz32_exact tot spc :
  In spc [1; 2; 4; 8; 16; 32; 64] ->
  32 <= tot -> tot + 128 * spc < 2 ^ 32 + 32 ->
  compute_FATSz32 tot spc = (tot - 32 + 128 * spc) / (128 * spc + 1).
Proof.
  intros Hin Hlo Hhi.
  assert (1 <= spc <= 64) as Hspc by (simpl in Hin; lia).
  unfold compute_FATSz32, BPB_ResvdSecCnt, BPB_NumFATs.
  rewrite (u32_id (tot - 32)) by lia.
  rewrite (u32_id (256 * spc + 2)) by lia.
  replace ((256 * spc + 2) / 2) with (128 * spc + 1)
    by (apply Z.div_unique with (r := 0); lia).
  rewrite (u32_id (128 * spc + 1)) by lia.
  rewrite (u32_id (128 * spc + 1 - 1)) by lia.
  rewrite (u32_id (tot - 32 + (128 * spc + 1 - 1))) by lia.
  replace (tot - 32 + (128 * spc + 1 - 1)) with (tot - 32 + 128 * spc) by lia.
  apply u32_id. split; [apply Z.div_pos; lia |].
  apply Z.div_lt_upper_bound; lia.
Qed.

(** C3: for every total sector count and sectors-per-cluster value that
    reach the FAT size computation, the FAT size written to the boot sector
    is the result of the formula of section 4.2 evaluated in unsigned
    32-bit arithmetic, on the total sector count and the sectors-per-cluster
    value written next to it. *)
Theorem C3_fat_size_formula dev fd cs label c :
  reaches_write_phase dev cs c ->
  let t := snd (format_fat32 dev fd cs label) in
  exists spc,
    written_SecPerClus t = Some spc /\
    written_TotSec32 t = Some (u32 c) /\
    written_FATSz32 t = Some (FATSz32_spec (u32 c) spc) /\
    compute_FATSz32 (u32 c) spc = FATSz32_spec (u32 c) spc.
Proof.
  intros Hreach t.
  destruct (format_fat32_geometry dev fd cs label c Hreach)
    as (spc & logs & _ & _ & Hspc & Htot & Hfat).
  exists spc. subst t. rewrite Hspc, Htot, Hfat, compute_FATSz32_spec. auto.
Qed.

Lemma good_dev_reaches c cs :
  c <= 4294967294 -> (cs = BS_AUTO -> 66600 <= c) ->
  reaches_write_phase (good_dev c) cs c.
Proof.
  intros Hc Hauto. split; [reflexivity |]. split; [exact Hc | exact Hauto].
Defined.

Lemma C3_fat_size_formula_witness :
  exists spc,
    written_SecPerClus (snd (format_fat32 (good_dev 100000) 3 BS_AUTO "TEST"))
      = Some spc /\
    written_TotSec32 (snd (format_fat32 (good_dev 100000) 3 BS_AUTO "TEST"))
      = Some (u32 100000) /\
    written_FATSz32 (snd (format_fat32 (good_dev 100000) 3 BS_AUTO "TEST"))
      = Some (FATSz32_spec (u32 100000) spc) /\
    compute_FATSz32 (u32 100000) spc = FATSz32_spec (u32 100000) spc.
Proof.
  apply (C3_fat_size_formula (good_dev 100000) 3 BS_AUTO "TEST" 100000).
  apply good_dev_reaches; [lia | intros _; lia].
Defined.

Example FATSz32_100000 : compute_FATSz32 100000 1 = 775.
Proof. reflexivity. Qed.

(** ** Volume label *)

Lemma format_fat32_trace dev fd cs label c :
  reaches_write_phase dev cs c ->
  exists spc logs rest,
    snd (format_fat32 dev fd cs label) =
    prelude logs fd label spc (u32 c) (compute_FATSz32 (u32 c) spc) ++ rest.
Proof.
  intros Hreach.
  destruct (format_fat32_reaches dev fd cs label c Hreach)
    as (spc & logs & bpb & _ & _ & _ & Hbpb & Hrun & _).
  destruct (write_phase_first dev fd bpb (compute_FATSz32 (u32 c) spc)
              (prelude logs fd label spc (u32 c) (compute_FATSz32 (u32 c) spc))
              (proj1 Hbpb)) as (r & rest & n & Hw).
  exists spc, logs, (EvWrite fd 0 bpb (write_ok dev 0) :: rest).
  rewrite Hrun, Hw. reflexivity.
Qed.

(** C4: the label field (bytes 71 to 81 of the boot sector that is
    written) holds the source bytes up to the first zero byte or up to 11
    bytes, and zero from there on.  A label longer than 11 bytes leaves its
    first 11 bytes in the field, is reported by the truncation warning, and
    does not change the value the call returns (0 when the writes succeed).
    The label MYUSB gives M Y U S B and six zero bytes. *)
Theorem C4_label_field dev fd cs label c :
  reaches_write_phase dev cs c ->
  let r := format_fat32 dev fd cs label in
  exists bpb,
    written_bpb (snd r) = Some bpb /\
    label_field bpb = label_field_spec label /\
    ((11 < strlen label)%nat ->
       label_field bpb = take 11 (label_bytes label) /\
       In truncation_warning (snd r) /\
       fst r = fst (format_fat32 dev fd cs EmptyString) /\
       (all_writes_ok dev -> fst r = Some 0)) /\
    (label = "MYUSB"%string ->
       label_field bpb = [77; 89; 85; 83; 66; 0; 0; 0; 0; 0; 0]).
Proof.
  intros Hreach r.
  destruct (format_fat32_reaches dev fd cs label c Hreach)
    as (spc & logs & bpb & _ & _ & _ & Hbpb & _ & Hw).
  pose proof (patched_bpb_label _ _ _ _ _ Hbpb) as Hfield.
  exists bpb. split; [exact Hw |]. split; [exact Hfield |]. split.
  - intros Hlong. split; [rewrite Hfield; apply label_field_spec_long; exact Hlong |].
    split.
    + destruct (format_fat32_trace dev fd cs label c Hreach)
        as (spc' & logs' & rest & Ht).
      subst r. rewrite Ht. apply in_or_app. left. unfold prelude.
      apply in_or_app. right. apply in_or_app. right. apply in_or_app. left.
      unfold label_logs. destruct (Nat.ltb_spec 11 (strlen label)); [| lia].
      left. reflexivity.
    + subst r. rewrite !(format_fat32_result dev fd cs _ c Hreach).
      split; [reflexivity |]. intros Hok.
      simpl. rewrite !Hok by lia. reflexivity.
  - intros ->. rewrite Hfield. reflexivity.
Qed.

Lemma C4_label_field_witness :
  exists bpb,
    written_bpb (snd (format_fat32 (good_dev 100000) 3 BS_AUTO "MYUSB"))
      = Some bpb /\
    label_field bpb = [77; 89; 85; 83; 66; 0; 0; 0; 0; 0; 0].
Proof.
  destruct (C4_label_field (good_dev 100000) 3 BS_AUTO "MYUSB" 100000)
    as (bpb & Hw & _ & _ & Hmyusb).
  - apply good_dev_reaches; [lia | intros _; lia].
  - exists bpb. split; [exact Hw | apply Hmyusb; reflexivity].
Defined.

Example label_exactly_11 :
  label_field_spec "ABCDEFGHIJK" = [65; 66; 67; 68; 69; 70; 71; 72; 73; 74; 75]
  /\ label_logs "ABCDEFGHIJK" = [].
Proof. split; reflexivity. Qed.

Example label_longer_than_11 :
  label_field_spec "ABCDEFGHIJKLMN" = [65; 66; 67; 68; 69; 70; 71; 72; 73; 74; 75]
  /\ label_logs "ABCDEFGHIJKLMN" = [truncation_warning].
Proof. split; reflexivity. Qed.

(** ** Explicit cluster size *)

Lemma write_event_not_printf fd ok ws e :
  In e (map (write_event fd ok) ws) -> is_printf e = false.
Proof.
  intros Hin. apply in_map_iff in Hin as (w & <- & _). reflexivity.
Qed.

(** Every diagnostic of a run that reaches the write phase is issued
    before the first write. *)
Lemma format_fat32_printfs dev fd cs label c e :
  reaches_write_phase dev cs c ->
  In e (snd (format_fat32 dev fd cs label)) -> is_printf e = true ->
  exists spc logs,
    select_SecPerClus cs c (State [] 0) = (Next spc, State logs 0) /\
    In e (prelude logs fd label spc (u32 c) (compute_FATSz32 (u32 c) spc)).
Proof.
  intros Hreach Hin Hp.
  destruct (first_failure dev) as [Hok | (k & Hk & Hpre & Hfail)].
  - destruct (format_fat32_success dev fd cs label c Hreach Hok)
      as (spc & logs & bpb & Hsel & _ & _ & _ & Hrun & _).
    exists spc, logs. split; [exact Hsel |].
    rewrite Hrun in Hin. cbn [snd] in Hin.
    apply in_app_or in Hin as [Hin | Hin]; [exact Hin |].
    apply in_app_or in Hin as [Hin | Hin].
    + apply write_event_not_printf in Hin. congruence.
    + destruct Hin as [<- | []]. discriminate Hp.
  - destruct (format_fat32_failure dev fd cs label c k Hreach Hk Hpre Hfail)
      as (spc & logs & bpb & Hsel & _ & _ & Hrun & _).
    exists spc, logs. split; [exact Hsel |].
    rewrite Hrun in Hin. cbn [snd] in Hin.
    apply in_app_or in Hin as [Hin | Hin]; [exact Hin |].
    apply in_app_or in Hin as [Hin | Hin];
      apply write_event_not_printf in Hin; congruence.
Qed.

(** C6: an explicit request maps directly to sectors-per-cluster (512 B to
    1, ..., 32768 B to 64) and is not checked against the capacity: for
    every capacity up to 2^32 - 2, those below 66600 included, the run
    writes the mapped value, never issues the "too small" diagnostic, and
    returns what the writes decide (0, after six writes, when they all
    succeed).  Only the too-large bound rejects the request. *)
Theorem C6_explicit_cluster_size dev fd cs spc label c :
  blkgetsize dev = Some c ->
  In (cs, spc)
     [ (BS_512B, 1); (BS_1024B, 2); (BS_2048B, 4); (BS_4096B, 8);
       (BS_8192B, 16); (BS_16384B, 32); (BS_32768B, 64) ] ->
  let r := format_fat32 dev fd cs label in
  (c <= 2 ^ 32 - 2 ->
     written_SecPerClus (snd r) = Some spc /\
     ~ In too_small_log (snd r) /\
     fst r = Some (if forallb (write_ok dev) (seq 0 6) then 0 else -1) /\
     (all_writes_ok dev ->
        fst r = Some 0 /\ length (writes_of (snd r)) = 6%nat)) /\
  (2 ^ 32 - 2 < c -> r = (Some (-1), [too_big_log])).
Proof.
  intros Hblk Htab r.
  assert (cs <> BS_AUTO) as Hcs.
  { intros ->. simpl in Htab.
    repeat (destruct Htab as [Htab | Htab]; [discriminate Htab |]). exact Htab. }
  destruct (select_explicit cs c (State [] 0) Hcs) as (spc' & Hsel' & Htab').
  assert (spc' = spc) as ->.
  { clear - Htab Htab'. simpl in Htab, Htab'.
    repeat (destruct Htab as [Htab | Htab];
            [ injection Htab as <- <-;
              repeat (destruct Htab' as [Htab' | Htab'];
                      [ try discriminate Htab'; injection Htab' as <-; reflexivity |]);
              contradiction |]).
    contradiction. }
  split.
  - intros Hc.
    assert (reaches_write_phase dev cs c) as Hreach.
    { split; [exact Hblk |]. split; [unfold UINT32_MAX; lia | congruence]. }
    destruct (format_fat32_geometry dev fd cs label c Hreach)
      as (spc0 & logs & Hsel & _ & Hspc & _).
    rewrite Hsel in Hsel'. injection Hsel' as -> ->.
    subst r. split; [exact Hspc |]. split.
    + intros Hin.
      destruct (format_fat32_printfs dev fd cs label c _ Hreach Hin eq_refl)
        as (spc1 & logs1 & Hsel1 & Hin1).
      rewrite Hsel in Hsel1. injection Hsel1 as <- <-.
      unfold prelude, debug_logs, label_logs in Hin1.
      destruct (11 <? strlen label)%nat; simpl in Hin1;
        repeat (destruct Hin1 as [Hin1 | Hin1]; [discriminate Hin1 |]);
        exact Hin1.
    + split; [apply (format_fat32_result dev fd cs label c Hreach) |].
      intros Hok.
      destruct (format_fat32_success dev fd cs label c Hreach Hok)
        as (spc2 & logs2 & bpb & _ & _ & _ & _ & Hrun & Hws).
      rewrite Hws, Hrun. split; reflexivity.
  - intros Hc. subst r.
    apply (format_fat32_too_large dev fd cs label c Hblk).
    unfold UINT32_MAX. lia.
Qed.

Lemma C6_explicit_cluster_size_witness :
  written_SecPerClus (snd (format_fat32 (good_dev 50000) 3 BS_4096B "TEST"))
    = Some 8 /\
  ~ In too_small_log (snd (format_fat32 (good_dev 50000) 3 BS_4096B "TEST")) /\
  fst (format_fat32 (good_dev 50000) 3 BS_4096B "TEST") = Some 0.
Proof.
  destruct (C6_explicit_cluster_size (good_dev 50000) 3 BS_4096B 8 "TEST" 50000)
    as [Hfit _].
  - reflexivity.
  - simpl. tauto.
  - destruct Hfit as (Hspc & Hsmall & Hres & _); [lia |].
    split; [exact Hspc |]. split; [exact Hsmall | exact Hres].
Defined.

(** ** The bytes of the boot sector outside the patched fields *)

Lemma bytes_at_frame (bpb : list Z) off n :
  (forall j, (off <= j < off + n)%nat -> bpb !! j = fat32_bpb !! j) ->
  bytes_at bpb off n = bytes_at fat32_bpb off n.
Proof.
  intros Hb. apply list_eq. intros k. unfold bytes_at.
  destruct (Nat.lt_ge_cases k n) as [Hk | Hk].
  - rewrite !lookup_take_lt, !lookup_drop by exact Hk. apply Hb. lia.
  - rewrite !lookup_take_ge by exact Hk. reflexivity.
Qed.

(** The writes of a run are an initial segment of the six writes. *)
Lemma format_fat32_writes dev fd cs label c :
  reaches_write_phase dev cs c ->
  exists spc bpb n,
    written_bpb (snd (format_fat32 dev fd cs label)) = Some bpb /\
    is_patched_bpb bpb label spc (u32 c) (compute_FATSz32 (u32 c) spc) /\
    (1 <= n <= 6)%nat /\
    writes_of (snd (format_fat32 dev fd cs label)) =
      take n (six_writes bpb (compute_FATSz32 (u32 c) spc)).
Proof.
  intros Hreach.
  destruct (first_failure dev) as [Hok | (k & Hk & Hpre & Hfail)].
  - destruct (format_fat32_success dev fd cs label c Hreach Hok)
      as (spc & logs & bpb & _ & _ & Hbpb & Hw & _ & Hws).
    exists spc, bpb, 6%nat. repeat (split; [assumption || lia |]).
    rewrite Hws. reflexivity.
  - destruct (format_fat32_failure dev fd cs label c k Hreach Hk Hpre Hfail)
      as (spc & logs & bpb & _ & Hbpb & Hw & _ & Hws).
    exists spc, bpb, (S k). repeat (split; [assumption || lia |]).
    exact Hws.
Qed.

(** C7: in every run that reaches the write phase, the boot sector handed
    to the first write, and to the third write when that is issued, agrees
    with the template at every offset outside the four patched fields (13,
    32-35, 36-39, 71-81); in particular it keeps bytes-per-sector 512,
    reserved sectors 32, two FATs, media 0xF8, root cluster 2, FSInfo
    sector 1, backup boot sector 6, boot signature 0x29, the FAT32 type
    string, blank boot code and the 0x55 0xAA signature. *)
Theorem C7_bpb_frame dev fd cs label c :
  reaches_write_phase dev cs c ->
  let t := snd (format_fat32 dev fd cs label) in
  exists bpb,
    written_bpb t = Some bpb /\
    writes_of t !! 0%nat = Some (0, bpb) /\
    (forall w, writes_of t !! 2%nat = Some w -> w = (3072, bpb)) /\
    length bpb = 512%nat /\
    (forall j, j <> 13%nat -> ~ (32 <= j <= 35)%nat -> ~ (36 <= j <= 39)%nat ->
               ~ (71 <= j <= 81)%nat -> bpb !! j = fat32_bpb !! j) /\
    bytes_at bpb 11 2 = [0x00; 0x02] /\
    bytes_at bpb 14 2 = [0x20; 0x00] /\
    bytes_at bpb 16 1 = [0x02] /\
    bytes_at bpb 21 1 = [0xF8] /\
    bytes_at bpb 44 4 = [0x02; 0x00; 0x00; 0x00] /\
    bytes_at bpb 48 2 = [0x01; 0x00] /\
    bytes_at bpb 50 2 = [0x06; 0x00] /\
    bytes_at bpb 66 1 = [0x29] /\
    bytes_at bpb 82 8 = label_bytes "FAT32   " /\
    bytes_at bpb 90 420 = replicate 420 0 /\
    bytes_at bpb 510 2 = [0x55; 0xAA].
Proof.
  intros Hreach t.
  destruct (format_fat32_writes dev fd cs label c Hreach)
    as (spc & bpb & n & Hw & Hbpb & Hn & Hws).
  assert (forall j, j <> 13%nat -> ~ (32 <= j <= 35)%nat ->
            ~ (36 <= j <= 39)%nat -> ~ (71 <= j <= 81)%nat ->
            bpb !! j = fat32_bpb !! j) as Hframe
    by (intros j; apply (patched_bpb_frame _ _ _ _ _ j Hbpb)).
  exists bpb. subst t. rewrite Hws.
  split; [exact Hw |].
  split; [destruct n as [| n]; [lia | reflexivity] |].
  split.
  { intros w Hl. do 2 (destruct n as [| n]; [discriminate Hl |]).
    destruct n as [| n]; [discriminate Hl |].
    cbn in Hl. congruence. }
  split; [apply Hbpb |].
  split; [exact Hframe |].
  repeat split;
    (rewrite bytes_at_frame;
     [reflexivity | intros j Hj; apply Hframe; lia]).
Qed.

Lemma C7_bpb_frame_witness :
  exists bpb,
    written_bpb (snd (format_fat32 (good_dev 100000) 3 BS_AUTO "TEST"))
      = Some bpb /\
    bytes_at bpb 11 2 = [0x00; 0x02] /\
    bytes_at bpb 510 2 = [0x55; 0xAA].
Proof.
  destruct (C7_bpb_frame (good_dev 100000) 3 BS_AUTO "TEST" 100000)
    as (bpb & Hw & _ & _ & _ & _ & H11 & H).
  - apply good_dev_reaches; [lia | intros _; lia].
  - exists bpb. split; [exact Hw |]. split; [exact H11 |]. apply H.
Defined.

(** ** Write failures and the final flush *)

Lemma select_logs_printf cs c spc logs :
  select_SecPerClus cs c (State [] 0) = (Next spc, State logs 0) ->
  forallb is_printf logs = true.
Proof.
  destruct cs; cbn; try (intros [= _ <-]; reflexivity).
  run_monad.
  repeat match goal with
         | |- context [?a <? ?b] => destruct (a <? b)
         end; intros [= _ <-] || discriminate; reflexivity.
Qed.

Lemma prelude_printf logs fd label spc tot fatsz :
  forallb is_printf logs = true ->
  forallb is_printf (prelude logs fd label spc tot fatsz) = true.
Proof.
  intros Hlogs. unfold prelude. rewrite !forallb_app, Hlogs.
  unfold label_logs. destruct (11 <? strlen label)%nat; reflexivity.
Qed.

(** C8, as the code has it: the first write that fails ends the run, which
    returns -1 with the failed write as its last event (no later write, no
    [sync()]); when all six writes succeed the run calls [sync()] after
    them and returns 0.  [sync()] yields no status, so on every device,
    whatever becomes of the flush, the value returned is decided by the
    writes alone. *)
Theorem C8_write_failure_aborts dev fd cs label c :
  reaches_write_phase dev cs c ->
  let r := format_fat32 dev fd cs label in
  (forall k, (k < 6)%nat ->
     (forall j, (j < k)%nat -> write_ok dev j = true) ->
     write_ok dev k = false ->
     fst r = Some (-1) /\
     length (writes_of (snd r)) = S k /\
     (exists pre off data, snd r = pre ++ [EvWrite fd off data false]) /\
     ~ In EvSync (snd r)) /\
  (all_writes_ok dev ->
     fst r = Some 0 /\
     exists pre,
       snd r = pre ++ [EvSync] /\
       length (writes_of pre) = 6%nat /\ ~ In EvSync pre).
Proof.
  intros Hreach r. split.
  - intros k Hk Hpre Hfail.
    destruct (format_fat32_failure dev fd cs label c k Hreach Hk Hpre Hfail)
      as (spc & logs & bpb & Hsel & Hbpb & _ & Hrun & Hws).
    pose proof (prelude_printf logs fd label spc (u32 c)
                  (compute_FATSz32 (u32 c) spc) (select_logs_printf _ _ _ _ Hsel))
      as Hprel.
    subst r. rewrite Hws, Hrun. cbn [fst snd].
    split; [reflexivity |]. split.
    { rewrite length_take. simpl. lia. }
    split.
    { do 6 (destruct k as [| k];
            [ eexists _, _, _; rewrite app_assoc; reflexivity |]). lia. }
    intros Hin.
    apply in_app_or in Hin as [Hin | Hin].
    + rewrite forallb_forall in Hprel. specialize (Hprel _ Hin). discriminate Hprel.
    + apply in_app_or in Hin as [Hin | Hin];
        apply in_map_iff in Hin as (w & Hw & _); discriminate Hw.
  - intros Hok.
    destruct (format_fat32_success dev fd cs label c Hreach Hok)
      as (spc & logs & bpb & Hsel & _ & _ & _ & Hrun & _).
    pose proof (prelude_printf logs fd label spc (u32 c)
                  (compute_FATSz32 (u32 c) spc) (select_logs_printf _ _ _ _ Hsel))
      as Hprel.
    subst r. rewrite Hrun. cbn [fst snd]. split; [reflexivity |].
    eexists. split; [rewrite app_assoc; reflexivity |]. split.
    + rewrite writes_of_app, writes_of_printf, writes_of_write_events by exact Hprel.
      reflexivity.
    + intros Hin. apply in_app_or in Hin as [Hin | Hin].
      * rewrite forallb_forall in Hprel. specialize (Hprel _ Hin). discriminate Hprel.
      * apply in_map_iff in Hin as (w & Hw & _). discriminate Hw.
Qed.

Lemma C8_write_failure_aborts_witness :
  fst (format_fat32 dev_flush_lost 3 BS_AUTO "TEST") = Some 0 /\
  fst (format_fat32 (Device (Some 100000) (fun k => negb (k =? 2)%nat) true)
         3 BS_AUTO "TEST") = Some (-1).
Proof.
  split.
  - apply (C8_write_failure_aborts dev_flush_lost 3 BS_AUTO "TEST" 100000).
    + split; [reflexivity |]. split; [unfold UINT32_MAX; lia | intros _; lia].
    + intros k _. reflexivity.
  - apply (C8_write_failure_aborts
             (Device (Some 100000) (fun k => negb (k =? 2)%nat) true)
             3 BS_AUTO "TEST" 100000) with (k := 2%nat).
    + split; [reflexivity |]. split; [unfold UINT32_MAX; lia | intros _; lia].
    + lia.
    + intros j Hj. do 2 (destruct j as [| j]; [reflexivity |]). lia.
    + reflexivity.
Defined.

(** C8 as stated fails: on a device whose flush does not complete the call
    still returns 0. *)
Lemma C8_flush_failure_unreported :
  sync_done dev_flush_lost = false /\
  all_writes_ok dev_flush_lost /\
  fst (format_fat32 dev_flush_lost 3 BS_AUTO "TEST") = Some 0 /\
  fst (format_fat32 dev_flush_lost 3 BS_AUTO "TEST") <> Some (-1).
Proof.
  split; [reflexivity |]. split; [intros k _; reflexivity |].
  split; [reflexivity | discriminate].
Qed.

(** ** The offset of the second FAT *)

Lemma second_fat_offset_mod fatsz :
  second_fat_offset fatsz = ((32 + fatsz) * 512) mod 2 ^ 32.
Proof.
  unfold second_fat_offset, u32, BPB_ResvdSecCnt.
  apply Zmult_mod_idemp_l.
Qed.

Lemma second_fat_offset_exact fatsz :
  0 <= fatsz -> (32 + fatsz) * 512 < 2 ^ 32 ->
  second_fat_offset fatsz = (32 + fatsz) * 512.
Proof.
  intros H0 H. rewrite second_fat_offset_mod. apply Z.mod_small. lia.
Qed.

(** Under the automatic policy the product never reaches 2^32. *)
Lemma second_fat_offset_auto c spc logs :
  66600 <= c <= UINT32_MAX - 1 ->
  select_SecPerClus BS_AUTO c (State [] 0) = (Next spc, State logs 0) ->
  second_fat_offset (compute_FATSz32 (u32 c) spc)
  = (32 + compute_FATSz32 (u32 c) spc) * 512.
Proof.
  intros Hc Hsel. unfold UINT32_MAX in Hc.
  destruct (select_auto c) as (spc' & Hsel' & H1 & H8 & H16 & H32 & H64);
    [unfold UINT32_MAX; lia |].
  rewrite Hsel in Hsel'. injection Hsel' as <- _.
  pose proof (compute_FATSz32_range (u32 c) spc) as Hr.
  apply second_fat_offset_exact; [lia |].
  rewrite u32_id in * by lia.
  assert (compute_FATSz32 c spc <= 8388575); [| lia].
  destruct (Z.lt_ge_cases c 532480) as [Ha | Ha].
  { rewrite H1 by lia. rewrite compute_FATSz32_exact by (simpl; lia).
    apply Z.lt_succ_r. apply Z.div_lt_upper_bound; lia. }
  destruct (Z.lt_ge_cases c 16777216) as [Hb | Hb].
  { rewrite H8 by lia. rewrite compute_FATSz32_exact by (simpl; lia).
    apply Z.lt_succ_r. apply Z.div_lt_upper_bound; lia. }
  destruct (Z.lt_ge_cases c 33554432) as [Hd | Hd].
  { rewrite H16 by lia. rewrite compute_FATSz32_exact by (simpl; lia).
    apply Z.lt_succ_r. apply Z.div_lt_upper_bound; lia. }
  destruct (Z.lt_ge_cases c 67108864) as [He | He].
  { rewrite H32 by lia. rewrite compute_FATSz32_exact by (simpl; lia).
    apply Z.lt_succ_r. apply Z.div_lt_upper_bound; lia. }
  rewrite H64 by lia. unfold compute_FATSz32, BPB_ResvdSecCnt, BPB_NumFATs.
  change (u32 (u32 (256 * 64 + 2) / 2)) with 8193.
  change (u32 (8193 - 1)) with 8192.
  rewrite (u32_id (_ / 8193)).
  - apply Z.lt_succ_r. apply Z.div_lt_upper_bound; [lia |].
    pose proof (u32_range (u32 (c - 32) + 8192)). lia.
  - pose proof (u32_range (u32 (c - 32) + 8192)) as Hu.
    split; [apply Z.div_pos; lia | apply Z.div_lt_upper_bound; lia].
Qed.

(** C10: the offset of the sixth write is [(32 + FATSz32) * 512] reduced
    modulo 2^32.  From FATSz32 = 8388576 on the product is at least 2^32
    and the write lands below the position the product names; an explicit
    512-byte cluster size on a device of about 1.08 * 10^9 sectors or more
    (and accepted by the capacity check) produces such a FAT size. *)
Theorem C10_second_fat_offset_wraps dev fd cs label c :
  reaches_write_phase dev cs c -> all_writes_ok dev ->
  let t := snd (format_fat32 dev fd cs label) in
  exists fatsz,
    written_FATSz32 t = Some fatsz /\
    writes_of t !! 5%nat
      = Some (((32 + fatsz) * 512) mod 2 ^ 32, fat32_fat) /\
    (8388576 <= fatsz ->
       2 ^ 32 <= (32 + fatsz) * 512 /\
       ((32 + fatsz) * 512) mod 2 ^ 32 < (32 + fatsz) * 512) /\
    (cs = BS_512B -> 1082126208 <= c <= 4294967199 -> 8388576 <= fatsz).
Proof.
  intros Hreach Hok t.
  destruct (format_fat32_success dev fd cs label c Hreach Hok)
    as (spc & logs & bpb & Hsel & Hin & Hbpb & Hw & _ & Hws).
  exists (compute_FATSz32 (u32 c) spc). subst t.
  split.
  { unfold written_FATSz32. rewrite Hw.
    rewrite (patched_bpb_FATSz32 _ _ _ _ _ Hbpb) by apply compute_FATSz32_range.
    reflexivity. }
  split.
  { rewrite Hws. cbn. rewrite second_fat_offset_mod. reflexivity. }
  split.
  { intros Hbig. split; [lia |].
    pose proof (Z.mod_pos_bound ((32 + compute_FATSz32 (u32 c) spc) * 512) (2 ^ 32)
                  ltac:(lia)). lia. }
  intros -> Hc. cbn in Hsel. injection Hsel as <- _.
  rewrite u32_id by lia.
  rewrite compute_FATSz32_exact by (simpl; lia).
  apply Z.div_le_lower_bound; lia.
Qed.

Lemma C10_second_fat_offset_wraps_witness :
  exists fatsz,
    written_FATSz32 (snd (format_fat32 (good_dev 1082126208) 3 BS_512B "TEST"))
      = Some fatsz /\
    writes_of (snd (format_fat32 (good_dev 1082126208) 3 BS_512B "TEST")) !! 5%nat
      = Some (((32 + fatsz) * 512) mod 2 ^ 32, fat32_fat) /\
    2 ^ 32 <= (32 + fatsz) * 512 /\
    ((32 + fatsz) * 512) mod 2 ^ 32 < (32 + fatsz) * 512.
Proof.
  destruct (C10_second_fat_offset_wraps (good_dev 1082126208) 3 BS_512B "TEST"
              1082126208) as (fatsz & Hf & Hw & Hwrap & Hbig).
  - apply good_dev_reaches; [lia | discriminate].
  - intros k _. reflexivity.
  - exists fatsz. split; [exact Hf |]. split; [exact Hw |].
    apply Hwrap. apply Hbig; [reflexivity | lia].
Defined.

(** ** The six writes *)

(** When the product [(32 + FATSz32) * 512] stays below 2^32 (always so
    under the automatic policy, see [second_fat_offset_auto]) and no write
    fails, the run issues the six writes of section 4.4 and nothing else:
    the two boot sector writes carry the same patched buffer, the FSInfo
    and FAT writes the unchanged templates. *)
Lemma format_fat32_six_writes dev fd cs label c :
  reaches_write_phase dev cs c -> all_writes_ok dev ->
  exists bpb fatsz,
    written_FATSz32 (snd (format_fat32 dev fd cs label)) = Some fatsz /\
    ((32 + fatsz) * 512 < 2 ^ 32 ->
     writes_of (snd (format_fat32 dev fd cs label)) =
       [ (0, bpb); (512, fat32_fsi); (3072, bpb); (3584, fat32_fsi);
         (32 * 512, fat32_fat); ((32 + fatsz) * 512, fat32_fat) ]).
Proof.
  intros Hreach Hok.
  destruct (format_fat32_success dev fd cs label c Hreach Hok)
    as (spc & logs & bpb & Hsel & Hin & Hbpb & Hw & _ & Hws).
  exists bpb, (compute_FATSz32 (u32 c) spc). split.
  { unfold written_FATSz32. rewrite Hw.
    rewrite (patched_bpb_FATSz32 _ _ _ _ _ Hbpb) by apply compute_FATSz32_range.
    reflexivity. }
  intros Hsmall. rewrite Hws. unfold six_writes.
  rewrite second_fat_offset_exact; [reflexivity | | exact Hsmall].
  apply compute_FATSz32_range.
Qed.

(** C1 at a device of 1082126208 sectors with an explicit 512-byte cluster
    size: the FAT size is 8388576, so the second FAT belongs at byte
    (32 + 8388576) * 512 = 2^32; the sixth write goes to offset 0 instead,
    and the device ends up with the first FAT entry in place of the first
    bytes of the primary boot sector. *)
Theorem C1_second_fat_misplaced :
  let t := snd (format_fat32 (good_dev 1082126208) 3 BS_512B "TEST") in
  fst (format_fat32 (good_dev 1082126208) 3 BS_512B "TEST") = Some 0 /\
  written_FATSz32 t = Some 8388576 /\
  (32 + 8388576) * 512 = 4294967296 /\
  map fst (writes_of t) = [0; 512; 3072; 3584; 16384; 0] /\
  writes_of t !! 5%nat = Some (0, fat32_fat) /\
  disk_after t 4294967296 = None /\
  map (disk_after t) [0; 1; 2; 3] = map Some [0xF8; 0xFF; 0xFF; 0x0F] /\
  bytes_at fat32_bpb 0 4 = [0xEB; 0x00; 0x90; 0x52].
Proof.
  vm_compute. repeat split.
Qed.

(** * Further properties of [format_fat32] *)

(** ** Byte order of the 32-bit fields *)

Lemma le32_recompose_mod v :
  v mod 256 + 2 ^ 8 * ((v / 2 ^ 8) mod 256)
  + 2 ^ 16 * ((v / 2 ^ 16) mod 256) + 2 ^ 24 * ((v / 2 ^ 24) mod 256)
  = v mod 2 ^ 32.
Proof.
  change (2 ^ 8) with 256. change (2 ^ 16) with 65536.
  change (2 ^ 24) with 16777216. change (2 ^ 32) with 4294967296.
  Z.div_mod_to_equations. lia.
Qed.

(** X1: the four bytes that steps 2/4 and 3/4 store are the little-endian
    image of the low 32 bits of the value: read back least significant
    byte first they give the value modulo 2^32.  The store keeps the
    length of the buffer and changes no byte outside the field. *)
Theorem store_le32_roundtrip (buf : list Z) (off : nat) (v : Z) :
  (off + 3 < length buf)%nat ->
  load_le32 (store_le32 buf off v) off = u32 v /\
  length (store_le32 buf off v) = length buf /\
  (forall j, (j < off \/ off + 4 <= j)%nat ->
             store_le32 buf off v !! j = buf !! j).
Proof.
  intros Hlen. split; [| split].
  - destruct (store_le32_bytes buf off v Hlen) as (B0 & B1 & B2 & B3).
    unfold load_le32.
    rewrite (nth_lookup_Some _ off 0 _ B0), (nth_lookup_Some _ (off + 1) 0 _ B1),
      (nth_lookup_Some _ (off + 2) 0 _ B2), (nth_lookup_Some _ (off + 3) 0 _ B3).
    apply le32_recompose_mod.
  - apply store_le32_length.
  - intros j Hj. apply store_le32_lookup_ne. exact Hj.
Qed.

Lemma store_le32_roundtrip_witness :
  load_le32 (store_le32 fat32_bpb 32 4294967297) 32 = u32 4294967297.
Proof.
  apply (store_le32_roundtrip fat32_bpb 32 4294967297).
  rewrite fat32_bpb_size. lia.
Defined.

(** ** The geometry written to the boot sector *)

(** X2: in every run that reaches the write phase on a device of [c >= 0]
    sectors, the total-sectors field holds [c] itself (the conversion to 32
    bits loses nothing after the capacity check) and the
    sectors-per-cluster byte is one of 1, 2, 4, 8, 16, 32, 64. *)
Theorem written_geometry_valid dev fd cs label c :
  reaches_write_phase dev cs c -> 0 <= c ->
  let t := snd (format_fat32 dev fd cs label) in
  written_TotSec32 t = Some c /\
  exists spc,
    written_SecPerClus t = Some spc /\ In spc [1; 2; 4; 8; 16; 32; 64].
Proof.
  intros Hreach Hc t.
  destruct (format_fat32_geometry dev fd cs label c Hreach)
    as (spc & logs & _ & Hin & Hspc & Htot & _).
  subst t. split.
  - rewrite Htot, u32_id; [reflexivity |].
    destruct Hreach as (_ & Hmax & _). unfold UINT32_MAX in Hmax. lia.
  - exists spc. split; assumption.
Qed.

Lemma written_geometry_valid_witness :
  written_TotSec32 (snd (format_fat32 (good_dev 4294967294) 3 BS_2048B "TEST"))
    = Some 4294967294.
Proof.
  apply (written_geometry_valid (good_dev 4294967294) 3 BS_2048B "TEST" 4294967294).
  - apply good_dev_reaches; [lia | discriminate].
  - lia.
Defined.

(** X3: when neither the subtraction of the reserved sectors nor the
    rounding term wraps (32 <= c and c + 128 * SecPerClus < 2^32 + 32), the
    FAT size written is the ceiling of (c - 32) / (128 * SecPerClus + 1):
    the least number of blocks of 128 * SecPerClus + 1 sectors that cover
    the sectors after the reserved region. *)
Theorem written_FATSz32_ceiling dev fd cs label c :
  reaches_write_phase dev cs c -> 32 <= c ->
  let t := snd (format_fat32 dev fd cs label) in
  exists spc fatsz,
    written_SecPerClus t = Some spc /\
    written_FATSz32 t = Some fatsz /\
    (c + 128 * spc < 2 ^ 32 + 32 ->
     (128 * spc + 1) * (fatsz - 1) < c - 32 <= (128 * spc + 1) * fatsz).
Proof.
  intros Hreach Hc t.
  destruct (format_fat32_geometry dev fd cs label c Hreach)
    as (spc & logs & _ & Hin & Hspc & _ & Hfat).
  exists spc, (compute_FATSz32 (u32 c) spc). subst t.
  split; [exact Hspc |]. split; [exact Hfat |]. intros Hfit.
  assert (1 <= spc <= 64) as Hs by (simpl in Hin; lia).
  rewrite u32_id by lia.
  rewrite compute_FATSz32_exact by (assumption || lia).
  pose proof (Z.div_mod (c - 32 + 128 * spc) (128 * spc + 1) ltac:(lia)) as Hdm.
  pose proof (Z.mod_pos_bound (c - 32 + 128 * spc) (128 * spc + 1) ltac:(lia)) as Hm.
  set (q := (c - 32 + 128 * spc) / (128 * spc + 1)) in *.
  set (r := (c - 32 + 128 * spc) mod (128 * spc + 1)) in *.
  split; nia.
Qed.

Lemma written_FATSz32_ceiling_witness :
  exists fatsz,
    written_FATSz32 (snd (format_fat32 (good_dev 100000) 3 BS_AUTO "TEST"))
      = Some fatsz /\
    129 * (fatsz - 1) < 100000 - 32 <= 129 * fatsz.
Proof.
  destruct (written_FATSz32_ceiling (good_dev 100000) 3 BS_AUTO "TEST" 100000)
    as (spc & fatsz & Hspc & Hfat & Hceil).
  - apply good_dev_reaches; [lia | intros _; lia].
  - lia.
  - vm_compute in Hspc. injection Hspc as <-.
    exists fatsz. split; [exact Hfat |]. apply Hceil. lia.
Defined.

(** ** The FAT is large enough *)

Lemma auto_geometry dev fd label c :
  blkgetsize dev = Some c -> 66600 <= c <= UINT32_MAX - 1 ->
  exists spc logs,
    select_SecPerClus BS_AUTO c (State [] 0) = (Next spc, State logs 0) /\
    written_SecPerClus (snd (format_fat32 dev fd BS_AUTO label)) = Some spc /\
    written_FATSz32 (snd (format_fat32 dev fd BS_AUTO label))
      = Some (compute_FATSz32 c spc) /\
    (c < 532480 -> spc = 1) /\
    (532480 <= c < 16777216 -> spc = 8) /\
    (16777216 <= c < 33554432 -> spc = 16) /\
    (33554432 <= c < 67108864 -> spc = 32) /\
    (67108864 <= c -> spc = 64).
Proof.
  intros Hblk Hc.
  assert (reaches_write_phase dev BS_AUTO c) as Hreach.
  { split; [exact Hblk |]. split; [lia | intros _; lia]. }
  destruct (format_fat32_geometry dev fd BS_AUTO label c Hreach)
    as (spc & logs & Hsel & _ & Hspc & _ & Hfat).
  destruct (select_auto c Hc) as (spc' & Hsel' & Hranges).
  pose proof Hsel as Hsel0.
  rewrite Hsel' in Hsel0. injection Hsel0 as -> _.
  exists spc, logs. split; [exact Hsel |]. split; [exact Hspc |].
  split; [| exact Hranges].
  rewrite Hfat, u32_id; [reflexivity |]. unfold UINT32_MAX in Hc. lia.
Qed.

(** X4: under the automatic policy, on every device of 66600 to
    4294959135 sectors, the geometry written is coherent: the two FATs and
    the reserved sectors fit in the device, the data region has at least
    65525 clusters (the least count of a FAT32 volume), and the FAT has
    room for one 4-byte entry per data cluster plus the two reserved
    entries. *)
Theorem auto_fat_covers_data dev fd label c :
  blkgetsize dev = Some c -> 66600 <= c <= 4294959135 ->
  let t := snd (format_fat32 dev fd BS_AUTO label) in
  exists spc fatsz,
    written_SecPerClus t = Some spc /\
    written_FATSz32 t = Some fatsz /\
    32 + 2 * fatsz <= c /\
    65525 <= data_clusters c fatsz spc /\
    4 * (data_clusters c fatsz spc + 2) <= 512 * fatsz.
Proof.
  intros Hblk Hc t.
  destruct (auto_geometry dev fd label c Hblk)
    as (spc & logs & _ & Hspc & Hfat & H1 & H8 & H16 & H32 & H64);
    [unfold UINT32_MAX; lia |].
  exists spc, (compute_FATSz32 c spc). subst t.
  split; [exact Hspc |]. split; [exact Hfat |].
  unfold data_clusters, BPB_ResvdSecCnt, BPB_NumFATs.
  destruct (Z.lt_ge_cases c 532480) as [Ha | Ha].
  { rewrite H1 by lia. rewrite compute_FATSz32_exact by (simpl; lia).
    Z.div_mod_to_equations. lia. }
  destruct (Z.lt_ge_cases c 16777216) as [Hb | Hb].
  { rewrite H8 by lia. rewrite compute_FATSz32_exact by (simpl; lia).
    Z.div_mod_to_equations. lia. }
  destruct (Z.lt_ge_cases c 33554432) as [Hd | Hd].
  { rewrite H16 by lia. rewrite compute_FATSz32_exact by (simpl; lia).
    Z.div_mod_to_equations. lia. }
  destruct (Z.lt_ge_cases c 67108864) as [He | He].
  { rewrite H32 by lia. rewrite compute_FATSz32_exact by (simpl; lia).
    Z.div_mod_to_equations. lia. }
  rewrite H64 by lia. rewrite compute_FATSz32_exact by (simpl; lia).
  Z.div_mod_to_equations. lia.
Qed.

Lemma auto_fat_covers_data_witness :
  exists spc fatsz,
    written_SecPerClus (snd (format_fat32 (good_dev 66600) 3 BS_AUTO "TEST"))
      = Some spc /\
    written_FATSz32 (snd (format_fat32 (good_dev 66600) 3 BS_AUTO "TEST"))
      = Some fatsz /\
    32 + 2 * fatsz <= 66600 /\
    65525 <= data_clusters 66600 fatsz spc /\
    4 * (data_clusters 66600 fatsz spc + 2) <= 512 * fatsz.
Proof.
  apply (auto_fat_covers_data (good_dev 66600) 3 "TEST" 66600);
    [reflexivity | lia].
Defined.

(** ** Where the FAT size arithmetic wraps *)

Lemma u32_wrap_once z : 2 ^ 32 <= z < 2 ^ 33 -> u32 z = z - 2 ^ 32.
Proof.
  intros Hz. unfold u32. symmetry.
  apply Z.mod_unique with (q := 1); lia.
Qed.

Lemma compute_FATSz32_top c spc :
  In spc [1; 2; 4; 8; 16; 32; 64] ->
  c <= 2 ^ 32 - 2 -> 2 ^ 32 + 32 <= c + 128 * spc ->
  compute_FATSz32 c spc = 0.
Proof.
  intros Hin Hmax Hwrap.
  assert (1 <= spc <= 64) as Hs by (simpl in Hin; lia).
  unfold compute_FATSz32, BPB_ResvdSecCnt, BPB_NumFATs.
  rewrite (u32_id (c - 32)) by lia.
  rewrite (u32_id (256 * spc + 2)) by lia.
  replace ((256 * spc + 2) / 2) with (128 * spc + 1)
    by (apply Z.div_unique with (r := 0); lia).
  rewrite (u32_id (128 * spc + 1)) by lia.
  rewrite (u32_id (128 * spc + 1 - 1)) by lia.
  rewrite (u32_wrap_once (c - 32 + (128 * spc + 1 - 1))) by lia.
  rewrite Z.div_small by lia. reflexivity.
Qed.

Lemma compute_FATSz32_tiny c spc :
  In spc [1; 2; 4; 8; 16; 32; 64] -> 0 <= c <= 32 ->
  compute_FATSz32 c spc = 0.
Proof.
  intros Hin Hc.
  assert (1 <= spc <= 64) as Hs by (simpl in Hin; lia).
  unfold compute_FATSz32, BPB_ResvdSecCnt, BPB_NumFATs.
  rewrite (u32_id (256 * spc + 2)) by lia.
  replace ((256 * spc + 2) / 2) with (128 * spc + 1)
    by (apply Z.div_unique with (r := 0); lia).
  rewrite (u32_id (128 * spc + 1)) by lia.
  rewrite (u32_id (128 * spc + 1 - 1)) by lia.
  destruct (Z.eq_dec c 32) as [-> | Hne].
  - change (u32 (32 - 32)) with 0. rewrite (u32_id (0 + _)) by lia.
    rewrite Z.div_small by lia. reflexivity.
  - assert (u32 (c - 32) = c - 32 + 2 ^ 32) as ->.
    { unfold u32. symmetry. apply Z.mod_unique with (q := -1); lia. }
    rewrite (u32_wrap_once (c - 32 + 2 ^ 32 + (128 * spc + 1 - 1))) by lia.
    rewrite Z.div_small by lia. reflexivity.
Qed.

(** X5: at the top of the accepted range the rounding term wraps.  When
    c + 128 * SecPerClus >= 2^32 + 32 (under the automatic policy: from
    4294959136 sectors on) the sum TmpVal1 + (TmpVal2 - 1) exceeds 32 bits,
    the FAT size written is 0, and a run whose writes succeed puts both
    FAT copies at offset 16384. *)
Theorem FATSz32_zero_at_top dev fd cs label c :
  reaches_write_phase dev cs c ->
  let t := snd (format_fat32 dev fd cs label) in
  exists spc,
    written_SecPerClus t = Some spc /\
    (2 ^ 32 + 32 <= c + 128 * spc ->
     written_FATSz32 t = Some 0 /\
     (all_writes_ok dev ->
      map fst (drop 4 (writes_of t)) = [16384; 16384])).
Proof.
  intros Hreach t.
  destruct (format_fat32_geometry dev fd cs label c Hreach)
    as (spc & logs & Hsel & Hin & Hspc & _ & Hfat).
  exists spc. subst t. split; [exact Hspc |]. intros Hwrap.
  assert (compute_FATSz32 (u32 c) spc = 0) as Hzero.
  { destruct Hreach as (_ & Hmax & _). unfold UINT32_MAX in Hmax.
    assert (1 <= spc <= 64) as Hs by (simpl in Hin; lia).
    rewrite u32_id by lia. apply compute_FATSz32_top; [exact Hin | lia | exact Hwrap]. }
  split; [rewrite Hfat, Hzero; reflexivity |]. intros Hok.
  destruct (format_fat32_success dev fd cs label c Hreach Hok)
    as (spc2 & logs2 & bpb & Hsel2 & _ & _ & _ & _ & Hws).
  rewrite Hsel in Hsel2. injection Hsel2 as <- <-.
  rewrite Hws, Hzero. reflexivity.
Qed.

Lemma FATSz32_zero_at_top_witness :
  written_FATSz32 (snd (format_fat32 (good_dev 4294959136) 3 BS_AUTO "TEST"))
    = Some 0 /\
  map fst (drop 4 (writes_of (snd (format_fat32 (good_dev 4294959136) 3 BS_AUTO "TEST"))))
    = [16384; 16384].
Proof.
  destruct (FATSz32_zero_at_top (good_dev 4294959136) 3 BS_AUTO "TEST" 4294959136)
    as (spc & Hspc & Hzero).
  - apply good_dev_reaches; [lia | intros _; lia].
  - vm_compute in Hspc. injection Hspc as <-.
    destruct Hzero as [Hf Hw]; [lia |].
    split; [exact Hf |]. apply Hw. intros k _. reflexivity.
Defined.

(** X6: an explicit cluster size is accepted on a device of at most 32
    sectors.  There the subtraction of the reserved sectors wraps (or
    gives 0), the FAT size written is 0, and a run whose writes succeed
    issues all six writes, the two FAT copies at offset 16384, which is at
    or beyond the end of the device. *)
Theorem explicit_tiny_device dev fd cs label c :
  blkgetsize dev = Some c -> 0 <= c <= 32 -> cs <> BS_AUTO ->
  let r := format_fat32 dev fd cs label in
  written_FATSz32 (snd r) = Some 0 /\
  (all_writes_ok dev ->
   fst r = Some 0 /\
   map fst (writes_of (snd r)) = [0; 512; 3072; 3584; 16384; 16384] /\
   Forall (fun off => c * 512 <= off) (map fst (drop 4 (writes_of (snd r))))).
Proof.
  intros Hblk Hc Hcs r.
  assert (reaches_write_phase dev cs c) as Hreach.
  { split; [exact Hblk |]. split; [unfold UINT32_MAX; lia | congruence]. }
  destruct (format_fat32_geometry dev fd cs label c Hreach)
    as (spc & logs & Hsel & Hin & _ & _ & Hfat).
  assert (compute_FATSz32 (u32 c) spc = 0) as Hzero.
  { rewrite u32_id by lia. apply compute_FATSz32_tiny; assumption. }
  subst r. split; [rewrite Hfat, Hzero; reflexivity |]. intros Hok.
  destruct (format_fat32_success dev fd cs label c Hreach Hok)
    as (spc2 & logs2 & bpb & Hsel2 & _ & _ & _ & Hrun & Hws).
  rewrite Hsel in Hsel2. injection Hsel2 as <- <-.
  rewrite Hws, Hzero, Hrun. split; [reflexivity |]. split; [reflexivity |].
  cbn [drop map fst six_writes]. change (second_fat_offset 0) with 16384.
  constructor; [lia | constructor; [lia | constructor]].
Qed.

Lemma explicit_tiny_device_witness :
  written_FATSz32 (snd (format_fat32 (good_dev 16) 3 BS_512B "TEST")) = Some 0 /\
  fst (format_fat32 (good_dev 16) 3 BS_512B "TEST") = Some 0.
Proof.
  destruct (explicit_tiny_device (good_dev 16) 3 BS_512B "TEST" 16)
    as [Hf Hok]; [reflexivity | lia | discriminate |].
  split; [exact Hf |]. apply Hok. intros k _. reflexivity.
Defined.

(** ** Shape of the writes *)

Lemma second_fat_offset_aligned fatsz :
  0 <= second_fat_offset fatsz < 2 ^ 32 /\ second_fat_offset fatsz mod 512 = 0.
Proof.
  rewrite second_fat_offset_mod.
  change (2 ^ 32) with 4294967296.
  split; [apply Z.mod_pos_bound; lia |].
  Z.div_mod_to_equations. lia.
Qed.

Lemma In_write_event fd fd' ok ok' off data ws :
  In (EvWrite fd' off data ok') (map (write_event fd ok) ws) -> fd' = fd.
Proof.
  intros Hin. apply in_map_iff in Hin as (w & Hw & _).
  unfold write_event in Hw. congruence.
Qed.

Lemma In_printf_not_write fd off data ok t :
  forallb is_printf t = true -> ~ In (EvWrite fd off data ok) t.
Proof.
  intros Hp Hin. rewrite forallb_forall in Hp.
  specialize (Hp _ Hin). discriminate Hp.
Qed.

(** X7: whatever the policy and the outcome of the writes, a run issues at
    most six writes; each starts on a 512-byte boundary at an offset below
    2^32, carries 512 or 12 bytes, and goes to the descriptor the caller
    passed. *)
Theorem writes_well_formed dev fd cs label c :
  reaches_write_phase dev cs c ->
  let t := snd (format_fat32 dev fd cs label) in
  (length (writes_of t) <= 6)%nat /\
  Forall (fun w => 0 <= fst w < 2 ^ 32 /\ fst w mod 512 = 0 /\
                   (length (snd w) = 512%nat \/ length (snd w) = 12%nat))
         (writes_of t) /\
  (forall fd' off data ok, In (EvWrite fd' off data ok) t -> fd' = fd).
Proof.
  intros Hreach t.
  destruct (format_fat32_writes dev fd cs label c Hreach)
    as (spc & bpb & n & _ & Hbpb & Hn & Hws).
  subst t. rewrite Hws. split; [rewrite length_take; simpl; lia |]. split.
  - apply Forall_take. unfold six_writes.
    pose proof (second_fat_offset_aligned (compute_FATSz32 (u32 c) spc)) as [Hr Ha].
    destruct Hbpb as [Hlen _].
    repeat (constructor; [cbn [fst snd]; repeat split; (lia || reflexivity || auto) |]).
    constructor.
  - intros fd' off data ok Hin.
    destruct (first_failure dev) as [Hok | (k & Hk & Hpre & Hfail)].
    + destruct (format_fat32_success dev fd cs label c Hreach Hok)
        as (spc2 & logs & bpb2 & Hsel & _ & _ & _ & Hrun & _).
      rewrite Hrun in Hin. cbn [snd] in Hin.
      apply in_app_or in Hin as [Hin | Hin].
      { exfalso. revert Hin. apply In_printf_not_write, prelude_printf.
        exact (select_logs_printf _ _ _ _ Hsel). }
      apply in_app_or in Hin as [Hin | Hin].
      * exact (In_write_event _ _ _ _ _ _ _ Hin).
      * destruct Hin as [Hin | []]. discriminate Hin.
    + destruct (format_fat32_failure dev fd cs label c k Hreach Hk Hpre Hfail)
        as (spc2 & logs & bpb2 & Hsel & _ & _ & Hrun & _).
      rewrite Hrun in Hin. cbn [snd] in Hin.
      apply in_app_or in Hin as [Hin | Hin].
      { exfalso. revert Hin. apply In_printf_not_write, prelude_printf.
        exact (select_logs_printf _ _ _ _ Hsel). }
      apply in_app_or in Hin as [Hin | Hin];
        exact (In_write_event _ _ _ _ _ _ _ Hin).
Qed.

Lemma writes_well_formed_witness :
  (length (writes_of (snd (format_fat32 (good_dev 1082126208) 3 BS_512B "TEST")))
     <= 6)%nat.
Proof.
  apply (writes_well_formed (good_dev 1082126208) 3 BS_512B "TEST" 1082126208).
  apply good_dev_reaches; [lia | discriminate].
Defined.

(** ** Reading the device back *)



Lemma disk_after_printf_app t1 t2 :
  forallb is_printf t1 = true -> disk_after (t1 ++ t2) = disk_after t2.
Proof.
  intros Hp. unfold disk_after. rewrite fold_left_app. f_equal.
  generalize (fun _ : Z => @None Z).
  induction t1 as [| e t1 IH]; intros d; [reflexivity |].
  simpl in Hp. apply andb_prop in Hp as [He Hp].
  destruct e; try discriminate He. simpl. apply IH. exact Hp.
Qed.







(** ** The layout under the automatic policy *)

Lemma auto_FATSz32_bound c spc logs :
  66600 <= c <= UINT32_MAX - 1 ->
  select_SecPerClus BS_AUTO c (State [] 0) = (Next spc, State logs 0) ->
  0 <= compute_FATSz32 c spc /\ compute_FATSz32 c spc + 33 <= c.
Proof.
  intros Hc Hsel. unfold UINT32_MAX in Hc.
  destruct (select_auto c) as (spc' & Hsel' & H1 & H8 & H16 & H32 & H64);
    [unfold UINT32_MAX; lia |].
  rewrite Hsel in Hsel'. injection Hsel' as <- _.
  pose proof (compute_FATSz32_range c spc) as Hr.
  split; [lia |].
  destruct (Z.lt_ge_cases c 532480) as [Ha | Ha].
  { rewrite H1 by lia. rewrite compute_FATSz32_exact by (simpl; lia).
    Z.div_mod_to_equations. lia. }
  destruct (Z.lt_ge_cases c 16777216) as [Hb | Hb].
  { rewrite H8 by lia. rewrite compute_FATSz32_exact by (simpl; lia).
    Z.div_mod_to_equations. lia. }
  destruct (Z.lt_ge_cases c 33554432) as [Hd | Hd].
  { rewrite H16 by lia. rewrite compute_FATSz32_exact by (simpl; lia).
    Z.div_mod_to_equations. lia. }
  destruct (Z.lt_ge_cases c 67108864) as [He | He].
  { rewrite H32 by lia. rewrite compute_FATSz32_exact by (simpl; lia).
    Z.div_mod_to_equations. lia. }
  rewrite H64 by lia. unfold compute_FATSz32, BPB_ResvdSecCnt, BPB_NumFATs.
  change (u32 (u32 (256 * 64 + 2) / 2)) with 8193.
  change (u32 (8193 - 1)) with 8192.
  pose proof (u32_range (u32 (c - 32) + 8192)) as Hu.
  rewrite (u32_id (_ / 8193))
    by (split; [apply Z.div_pos; lia | apply Z.div_lt_upper_bound; lia]).
  assert (u32 (u32 (c - 32) + 8192) / 8193 < 524289); [| lia].
  apply Z.div_lt_upper_bound; lia.
Qed.

(** The writes of a run, with the selection they come from. *)
Lemma format_fat32_writes_of dev fd cs label c :
  reaches_write_phase dev cs c ->
  exists spc logs bpb n,
    select_SecPerClus cs c (State [] 0) = (Next spc, State logs 0) /\
    is_patched_bpb bpb label spc (u32 c) (compute_FATSz32 (u32 c) spc) /\
    (1 <= n <= 6)%nat /\
    (all_writes_ok dev -> n = 6%nat) /\
    writes_of (snd (format_fat32 dev fd cs label)) =
      take n (six_writes bpb (compute_FATSz32 (u32 c) spc)).
Proof.
  intros Hreach.
  destruct (first_failure dev) as [Hok | (k & Hk & Hpre & Hfail)].
  - destruct (format_fat32_success dev fd cs label c Hreach Hok)
      as (spc & logs & bpb & Hsel & _ & Hbpb & _ & _ & Hws).
    exists spc, logs, bpb, 6%nat.
    repeat (split; [assumption || lia || auto |]). rewrite Hws. reflexivity.
  - destruct (format_fat32_failure dev fd cs label c k Hreach Hk Hpre Hfail)
      as (spc & logs & bpb & Hsel & Hbpb & _ & _ & Hws).
    exists spc, logs, bpb, (S k).
    split; [exact Hsel |]. split; [exact Hbpb |]. split; [lia |].
    split; [| exact Hws].
    intros Hok. rewrite (Hok k Hk) in Hfail. discriminate Hfail.
Qed.

(** X9: under the automatic policy every write of a run ends inside the
    device: offset plus length never exceeds [c * 512] bytes. *)
Theorem auto_writes_inside_device dev fd label c :
  blkgetsize dev = Some c -> 66600 <= c <= 2 ^ 32 - 2 ->
  Forall (fun w => 0 <= fst w /\ fst w + Z.of_nat (length (snd w)) <= c * 512)
         (writes_of (snd (format_fat32 dev fd BS_AUTO label))).
Proof.
  intros Hblk Hc.
  assert (66600 <= c <= UINT32_MAX - 1) as Hc' by (unfold UINT32_MAX; lia).
  assert (reaches_write_phase dev BS_AUTO c) as Hreach.
  { split; [exact Hblk |]. split; [lia | intros _; lia]. }
  destruct (format_fat32_writes_of dev fd BS_AUTO label c Hreach)
    as (spc & logs & bpb & n & Hsel & [Hlen _] & Hn & _ & Hws).
  pose proof (auto_FATSz32_bound c spc logs Hc' Hsel) as [Hf0 Hf].
  pose proof (second_fat_offset_auto c spc logs Hc' Hsel) as Ho6.
  rewrite Hws. rewrite u32_id in * by (unfold UINT32_MAX in Hc'; lia).
  apply Forall_take. unfold six_writes. rewrite Ho6.
  repeat (constructor;
          [cbn [fst snd]; rewrite ?Hlen, ?fat32_fsi_size, ?fat32_fat_size; lia |]).
  constructor.
Qed.

Lemma auto_writes_inside_device_witness :
  Forall (fun w => 0 <= fst w /\ fst w + Z.of_nat (length (snd w)) <= 66600 * 512)
         (writes_of (snd (format_fat32 (good_dev 66600) 3 BS_AUTO "TEST"))).
Proof.
  apply (auto_writes_inside_device (good_dev 66600) 3 "TEST" 66600);
    [reflexivity | lia].
Defined.

(** ** The header agrees with the layout *)

Lemma patched_bpb_template_byte bpb label spc tot fatsz j x :
  is_patched_bpb bpb label spc tot fatsz ->
  j <> 13%nat -> ~ (32 <= j <= 35)%nat -> ~ (36 <= j <= 39)%nat ->
  ~ (71 <= j <= 81)%nat ->
  fat32_bpb !! j = Some x -> nth j bpb 0 = x.
Proof.
  intros Hbpb H13 H32 H36 H71 Hx. apply nth_lookup_Some.
  rewrite (patched_bpb_frame _ _ _ _ _ j Hbpb) by assumption. exact Hx.
Qed.

(** X10: the boot sector a run writes describes the layout the run
    produces.  When all six writes succeed and the second FAT offset does
    not wrap, a reader that takes bytes-per-sector, the reserved sector
    count, the FSInfo and backup boot sector indices and the FAT size from
    the written boot sector finds every other write where those fields
    say: FSInfo at FSInfo * BytsPerSec, the backup boot sector at
    BkBootSec * BytsPerSec followed by the backup FSInfo, the first FAT
    after the reserved sectors, the second FAT one FAT size later.  The
    header announces two FATs, and its media byte is the low byte of FAT
    entry 0. *)
Theorem header_locates_layout dev fd cs label c :
  reaches_write_phase dev cs c -> all_writes_ok dev ->
  let t := snd (format_fat32 dev fd cs label) in
  exists bpb,
    written_bpb t = Some bpb /\
    nth 16 bpb 0 = 2 /\
    nth 21 bpb 0 = nth 0 fat32_fat 0 /\
    let bps := load_le16 bpb 11 in
    let rsvd := load_le16 bpb 14 in
    let fsinfo := load_le16 bpb 48 in
    let bkboot := load_le16 bpb 50 in
    let fatsz := load_le32 bpb 36 in
    ((rsvd + fatsz) * bps < 2 ^ 32 ->
     writes_of t =
       [ (0, bpb); (fsinfo * bps, fat32_fsi); (bkboot * bps, bpb);
         ((bkboot + fsinfo) * bps, fat32_fsi);
         (rsvd * bps, fat32_fat); ((rsvd + fatsz) * bps, fat32_fat) ]).
Proof.
  intros Hreach Hok t.
  destruct (format_fat32_success dev fd cs label c Hreach Hok)
    as (spc & logs & bpb & _ & _ & Hbpb & Hw & _ & Hws).
  exists bpb. subst t. split; [exact Hw |].
  assert (forall j x, j <> 13%nat -> ~ (32 <= j <= 35)%nat ->
            ~ (36 <= j <= 39)%nat -> ~ (71 <= j <= 81)%nat ->
            fat32_bpb !! j = Some x -> nth j bpb 0 = x) as Hbyte
    by (intros j x; apply (patched_bpb_template_byte _ _ _ _ _ j x Hbpb)).
  split; [apply Hbyte; (lia || reflexivity) |].
  split; [apply Hbyte; (lia || reflexivity) |].
  unfold load_le16.
  rewrite (Hbyte 11%nat 0), (Hbyte 14%nat 32), (Hbyte 48%nat 1), (Hbyte 50%nat 6)
    by (lia || reflexivity).
  change (11 + 1)%nat with 12%nat. change (14 + 1)%nat with 15%nat.
  change (48 + 1)%nat with 49%nat. change (50 + 1)%nat with 51%nat.
  rewrite (Hbyte 12%nat 2), (Hbyte 15%nat 0), (Hbyte 49%nat 0), (Hbyte 51%nat 0)
    by (lia || reflexivity).
  change BPB_FAT_SZ_32_OFFSET with 36%nat in *.
  pose proof (patched_bpb_FATSz32 _ _ _ _ _ Hbpb
                (compute_FATSz32_range (u32 c) spc)) as Hf.
  change BPB_FAT_SZ_32_OFFSET with 36%nat in Hf. rewrite Hf.
  cbn zeta. intros Hfit. rewrite Hws. unfold six_writes.
  pose proof (compute_FATSz32_range (u32 c) spc) as Hr.
  rewrite second_fat_offset_exact by lia.
  repeat f_equal; lia.
Qed.

Lemma header_locates_layout_witness :
  exists bpb,
    written_bpb (snd (format_fat32 (good_dev 100000) 3 BS_AUTO "TEST")) = Some bpb /\
    nth 16 bpb 0 = 2.
Proof.
  destruct (header_locates_layout (good_dev 100000) 3 BS_AUTO "TEST" 100000)
    as (bpb & Hw & H16 & _).
  - apply good_dev_reaches; [lia | intros _; lia].
  - intros k _. reflexivity.
  - exists bpb. split; [exact Hw | exact H16].
Defined.

(** ** More on the label *)

Lemma select_logs_cases cs c spc logs :
  select_SecPerClus cs c (State [] 0) = (Next spc, State logs 0) ->
  logs = [] \/ logs = [autoset_log].
Proof.
  destruct cs; cbn; try (intros [= _ <-]; left; reflexivity).
  run_monad.
  repeat match goal with
         | |- context [?a <? ?b] => destruct (a <? b)
         end; intros [= _ <-] || discriminate; right; reflexivity.
Qed.

Lemma until_nul_take s : until_nul s = take (strlen_bytes s) s.
Proof.
  induction s as [| x s IH]; simpl; [reflexivity |].
  destruct (x =? 0); simpl; [reflexivity | now rewrite IH].
Qed.

Lemma field_byte_until_nul label k :
  field_byte label k = default 0 (until_nul (label_bytes label) !! k).
Proof.
  unfold field_byte, strlen, label_at.
  destruct (Nat.ltb_spec k (strlen_bytes (label_bytes label))) as [Hlt | Hge].
  - rewrite until_nul_lookup by exact Hlt. reflexivity.
  - rewrite lookup_ge_None_2 by (rewrite until_nul_length; exact Hge).
    reflexivity.
Qed.

(** X11: the truncation warning is emitted exactly when the label is
    longer than 11 bytes.  A label of at most 11 bytes is stored whole and
    followed by zero bytes up to 11; in particular the empty label leaves
    eleven zero bytes, so the NO NAME of the template never reaches the
    device. *)
Theorem truncation_warning_iff dev fd cs label c :
  reaches_write_phase dev cs c ->
  let t := snd (format_fat32 dev fd cs label) in
  (In truncation_warning t <-> (11 < strlen label)%nat) /\
  exists bpb,
    written_bpb t = Some bpb /\
    ((strlen label <= 11)%nat ->
     label_field bpb =
       take (strlen label) (label_bytes label)
       ++ replicate (11 - strlen label) 0) /\
    (label = EmptyString -> label_field bpb = replicate 11 0).
Proof.
  intros Hreach t.
  destruct (format_fat32_reaches dev fd cs label c Hreach)
    as (spc & logs & bpb & Hsel & _ & _ & Hbpb & _ & Hw).
  assert ((strlen label <= 11)%nat ->
          label_field bpb =
            take (strlen label) (label_bytes label)
            ++ replicate (11 - strlen label) 0) as Hshort.
  { intros Hs. rewrite (patched_bpb_label _ _ _ _ _ Hbpb).
    unfold label_field_spec, strlen in *.
    rewrite (take_ge (until_nul _))
      by (rewrite until_nul_length; exact Hs).
    rewrite until_nul_length, <- until_nul_take. reflexivity. }
  split.
  - split.
    + intros Hin.
      destruct (format_fat32_printfs dev fd cs label c _ Hreach Hin eq_refl)
        as (spc1 & logs1 & Hsel1 & Hin1).
      destruct (Nat.lt_ge_cases 11 (strlen label)) as [Hl | Hs]; [exact Hl |].
      exfalso. unfold prelude, debug_logs, label_logs in Hin1.
      destruct (Nat.ltb_spec 11 (strlen label)); [lia |].
      destruct (select_logs_cases _ _ _ _ Hsel1) as [-> | ->]; simpl in Hin1;
        repeat (destruct Hin1 as [Hin1 | Hin1]; [discriminate Hin1 |]);
        exact Hin1.
    + intros Hlong.
      destruct (format_fat32_trace dev fd cs label c Hreach)
        as (spc' & logs' & rest & Ht).
      subst t. rewrite Ht. apply in_or_app. left. unfold prelude.
      apply in_or_app. right. apply in_or_app. right. apply in_or_app. left.
      unfold label_logs. destruct (Nat.ltb_spec 11 (strlen label)); [| lia].
      left. reflexivity.
  - exists bpb. split; [exact Hw |]. split; [exact Hshort |].
    intros ->. apply Hshort. cbn. lia.
Qed.

Lemma truncation_warning_iff_witness :
  exists bpb,
    written_bpb (snd (format_fat32 (good_dev 100000) 3 BS_AUTO EmptyString))
      = Some bpb /\
    label_field bpb = replicate 11 0.
Proof.
  destruct (truncation_warning_iff (good_dev 100000) 3 BS_AUTO EmptyString 100000)
    as (_ & bpb & Hw & _ & Hempty).
  - apply good_dev_reaches; [lia | intros _; lia].
  - exists bpb. split; [exact Hw | apply Hempty; reflexivity].
Defined.

(** X12: only the bytes before the first zero byte of the caller's buffer
    matter.  Two labels that agree up to their first zero byte give the
    same boot sector and the same result, whatever follows the
    terminator. *)
Theorem label_after_terminator_ignored dev fd cs label1 label2 c :
  reaches_write_phase dev cs c ->
  until_nul (label_bytes label1) = until_nul (label_bytes label2) ->
  written_bpb (snd (format_fat32 dev fd cs label1))
    = written_bpb (snd (format_fat32 dev fd cs label2)) /\
  fst (format_fat32 dev fd cs label1) = fst (format_fat32 dev fd cs label2).
Proof.
  intros Hreach Heq. split.
  - destruct (format_fat32_reaches dev fd cs label1 c Hreach)
      as (spc1 & logs1 & bpb1 & Hsel1 & _ & _ & [Hlen1 Hb1] & _ & Hw1).
    destruct (format_fat32_reaches dev fd cs label2 c Hreach)
      as (spc2 & logs2 & bpb2 & Hsel2 & _ & _ & [Hlen2 Hb2] & _ & Hw2).
    rewrite Hsel1 in Hsel2. injection Hsel2 as <- <-.
    rewrite Hw1, Hw2. f_equal. apply list_eq. intros j.
    rewrite Hb1, Hb2. case_decide; [| reflexivity].
    rewrite !field_byte_until_nul, Heq. reflexivity.
  - rewrite !(format_fat32_result dev fd cs _ c Hreach). reflexivity.
Qed.

Lemma label_after_terminator_ignored_witness :
  written_bpb (snd (format_fat32 (good_dev 100000) 3 BS_AUTO
                      (String "A" (String "B" (String zero "junk")))))
    = written_bpb (snd (format_fat32 (good_dev 100000) 3 BS_AUTO "AB")).
Proof.
  apply (label_after_terminator_ignored (good_dev 100000) 3 BS_AUTO
           (String "A" (String "B" (String zero "junk"))) "AB" 100000).
  - apply good_dev_reaches; [lia | intros _; lia].
  - reflexivity.
Defined.

Lemma six_writes_offsets bpb1 bpb2 fatsz n :
  map fst (take n (six_writes bpb1 fatsz))
  = map fst (take n (six_writes bpb2 fatsz)).
Proof.
  unfold six_writes. do 7 (destruct n as [| n]; [reflexivity |]). reflexivity.
Qed.

(** X13: the label reaches the device through bytes 71 to 81 of the boot
    sector and nowhere else.  Two runs that differ only in the label
    return the same value, issue their writes at the same offsets, and
    write boot sectors that agree at every other position. *)
Theorem label_confined_to_field dev fd cs label1 label2 c :
  reaches_write_phase dev cs c ->
  let r1 := format_fat32 dev fd cs label1 in
  let r2 := format_fat32 dev fd cs label2 in
  fst r1 = fst r2 /\
  map fst (writes_of (snd r1)) = map fst (writes_of (snd r2)) /\
  exists bpb1 bpb2,
    written_bpb (snd r1) = Some bpb1 /\
    written_bpb (snd r2) = Some bpb2 /\
    forall j, ~ (71 <= j <= 81)%nat -> bpb1 !! j = bpb2 !! j.
Proof.
  intros Hreach r1 r2. subst r1 r2.
  split; [rewrite !(format_fat32_result dev fd cs _ c Hreach); reflexivity |].
  split.
  - destruct (first_failure dev) as [Hok | (k & Hk & Hpre & Hfail)].
    + destruct (format_fat32_success dev fd cs label1 c Hreach Hok)
        as (spc1 & logs1 & bpb1 & Hsel1 & _ & _ & _ & _ & Hws1).
      destruct (format_fat32_success dev fd cs label2 c Hreach Hok)
        as (spc2 & logs2 & bpb2 & Hsel2 & _ & _ & _ & _ & Hws2).
      rewrite Hsel1 in Hsel2. injection Hsel2 as <- <-.
      rewrite Hws1, Hws2. apply (six_writes_offsets bpb1 bpb2 _ 6).
    + destruct (format_fat32_failure dev fd cs label1 c k Hreach Hk Hpre Hfail)
        as (spc1 & logs1 & bpb1 & Hsel1 & _ & _ & _ & Hws1).
      destruct (format_fat32_failure dev fd cs label2 c k Hreach Hk Hpre Hfail)
        as (spc2 & logs2 & bpb2 & Hsel2 & _ & _ & _ & Hws2).
      rewrite Hsel1 in Hsel2. injection Hsel2 as <- <-.
      rewrite Hws1, Hws2. apply six_writes_offsets.
  - destruct (format_fat32_reaches dev fd cs label1 c Hreach)
      as (spc1 & logs1 & bpb1 & Hsel1 & _ & _ & [_ Hb1] & _ & Hw1).
    destruct (format_fat32_reaches dev fd cs label2 c Hreach)
      as (spc2 & logs2 & bpb2 & Hsel2 & _ & _ & [_ Hb2] & _ & Hw2).
    rewrite Hsel1 in Hsel2. injection Hsel2 as <- <-.
    exists bpb1, bpb2. split; [exact Hw1 |]. split; [exact Hw2 |].
    intros j Hj. rewrite Hb1, Hb2. unfold BPB_LABEL_OFFSET.
    case_decide; [lia | reflexivity].
Qed.

Lemma label_confined_to_field_witness :
  fst (format_fat32 (good_dev 100000) 3 BS_AUTO "TEST")
  = fst (format_fat32 (good_dev 100000) 3 BS_AUTO "A MUCH LONGER LABEL").
Proof.
  apply (label_confined_to_field (good_dev 100000) 3 BS_AUTO
           "TEST" "A MUCH LONGER LABEL" 100000).
  apply good_dev_reaches; [lia | intros _; lia].
Defined.

(** ** Diagnostics *)



(** ** The result of the call *)

(** X15: the call returns 0 exactly when the capacity ioctl succeeds, the
    capacity passes the checks of the chosen policy and all six writes
    succeed; in every other case it returns -1.  [sync()] is called in the
    runs that return 0 and in no other. *)
Theorem format_fat32_result_iff dev fd cs label :
  let r := format_fat32 dev fd cs label in
  (fst r = Some 0 \/ fst r = Some (-1)) /\
  (fst r = Some 0 <->
   exists c, reaches_write_phase dev cs c /\ all_writes_ok dev) /\
  (In EvSync (snd r) <-> fst r = Some 0).
Proof.
  intros r. subst r.
  split; [apply format_fat32_returns |].
  destruct (blkgetsize dev) as [c |] eqn:Hblk.
  2:{ unfold format_fat32, format_fat32_body. rewrite Hblk. cbn. split; split.
      - discriminate.
      - intros (c & (Hc & _) & _). congruence.
      - intros [H | []]. discriminate H.
      - discriminate. }
  destruct (Z.lt_ge_cases (UINT32_MAX - 1) c) as [Hbig | Hfit].
  { rewrite (format_fat32_too_large dev fd cs label c Hblk Hbig). cbn.
    split; split.
    - discriminate.
    - intros (c' & (Hc' & Hmax & _) & _). rewrite Hblk in Hc'.
      injection Hc' as <-. lia.
    - intros [H | []]. discriminate H.
    - discriminate. }
  destruct (decide (cs = BS_AUTO /\ c < 66600)) as [[-> Hsmall] | Hgo].
  { rewrite (format_fat32_too_small dev fd label c Hblk Hsmall). cbn.
    split; split.
    - discriminate.
    - intros (c' & (Hc' & _ & Hmin) & _). rewrite Hblk in Hc'.
      injection Hc' as <-. specialize (Hmin eq_refl). lia.
    - intros [H | [H | []]]; discriminate H.
    - discriminate. }
  assert (reaches_write_phase dev cs c) as Hreach.
  { split; [exact Hblk |]. split; [exact Hfit |]. intros ->.
    destruct (Z.lt_ge_cases c 66600) as [Hlt | Hge]; [| exact Hge].
    exfalso. apply Hgo. split; [reflexivity | exact Hlt]. }
  destruct (first_failure dev) as [Hok | (k & Hk & Hpre & Hfail)].
  - destruct (format_fat32_success dev fd cs label c Hreach Hok)
      as (spc & logs & bpb & _ & _ & _ & _ & Hrun & _).
    rewrite Hrun. cbn [fst snd]. split; split.
    + intros _. exists c. split; assumption.
    + reflexivity.
    + reflexivity.
    + intros _. apply in_or_app. right. apply in_or_app. right. left. reflexivity.
  - destruct (format_fat32_failure dev fd cs label c k Hreach Hk Hpre Hfail)
      as (spc & logs & bpb & Hsel & _ & _ & Hrun & _).
    rewrite Hrun. cbn [fst snd]. split; split.
    + discriminate.
    + intros (c' & _ & Hok). rewrite (Hok k Hk) in Hfail. discriminate Hfail.
    + intros Hin. exfalso.
      apply in_app_or in Hin as [Hin | Hin].
      * pose proof (prelude_printf logs fd label spc (u32 c)
                      (compute_FATSz32 (u32 c) spc)
                      (select_logs_printf _ _ _ _ Hsel)) as Hp.
        rewrite forallb_forall in Hp. specialize (Hp _ Hin). discriminate Hp.
      * apply in_app_or in Hin as [Hin | Hin];
          apply in_map_iff in Hin as (w & Hw & _); discriminate Hw.
    + discriminate.
Qed.

(** ** A failed write leaves the earlier writes in place *)

Lemma disk_after_failed_tail t fd ws :
  disk_after (t ++ map (write_event fd false) ws) = disk_after t.
Proof.
  unfold disk_after. rewrite fold_left_app.
  generalize (fold_left
    (fun (d : disk) (e : event) =>
       match e with
       | EvWrite _ off data true => apply_write d off data
       | _ => d
       end) t (fun _ => None)).
  induction ws as [| w ws IH]; intros d; [reflexivity |]. simpl. apply IH.
Qed.

(** X16: nothing is rolled back.  When write number [k] is the first to
    fail, the device holds exactly what the [k] writes before it put
    there: the run changes the device as a run of those [k] writes alone
    would, and returns -1. *)
Theorem failed_run_keeps_earlier_writes dev fd cs label c k :
  reaches_write_phase dev cs c -> (k < 6)%nat ->
  (forall j, (j < k)%nat -> write_ok dev j = true) ->
  write_ok dev k = false ->
  let r := format_fat32 dev fd cs label in
  fst r = Some (-1) /\
  exists writes,
    writes_of (snd r) = writes /\
    length writes = S k /\
    disk_after (snd r)
    = disk_after (map (write_event fd true) (take k writes)).
Proof.
  intros Hreach Hk Hpre Hfail r.
  destruct (format_fat32_failure dev fd cs label c k Hreach Hk Hpre Hfail)
    as (spc & logs & bpb & Hsel & _ & _ & Hrun & Hws).
  subst r. rewrite Hws, Hrun. cbn [fst snd]. split; [reflexivity |].
  eexists. split; [reflexivity |]. split.
  { rewrite length_take. simpl. lia. }
  rewrite app_assoc, disk_after_failed_tail.
  rewrite disk_after_printf_app
    by exact (prelude_printf _ _ _ _ _ _ (select_logs_printf _ _ _ _ Hsel)).
  rewrite take_take. rewrite Nat.min_l by lia. reflexivity.
Qed.

Lemma failed_run_keeps_earlier_writes_witness :
  fst (format_fat32 (Device (Some 100000) (fun k => negb (k =? 1)%nat) true)
         3 BS_AUTO "TEST") = Some (-1).
Proof.
  apply (failed_run_keeps_earlier_writes
           (Device (Some 100000) (fun k => negb (k =? 1)%nat) true)
           3 BS_AUTO "TEST" 100000 1).
  - split; [reflexivity |]. split; [unfold UINT32_MAX; lia | intros _; lia].
  - lia.
  - intros j Hj. destruct j as [| j]; [reflexivity | lia].
  - reflexivity.
Defined.

(** ** Monotonicity of the automatic policy *)

(** X17: under the automatic policy a larger device never gets a smaller
    cluster: if [c1 <= c2] are both accepted, the sectors-per-cluster
    value written for [c1] is at most the one written for [c2]. *)
Theorem auto_cluster_size_monotone dev1 dev2 fd label c1 c2 :
  blkgetsize dev1 = Some c1 -> blkgetsize dev2 = Some c2 ->
  66600 <= c1 -> c1 <= c2 -> c2 <= 2 ^ 32 - 2 ->
  exists spc1 spc2,
    written_SecPerClus (snd (format_fat32 dev1 fd BS_AUTO label)) = Some spc1 /\
    written_SecPerClus (snd (format_fat32 dev2 fd BS_AUTO label)) = Some spc2 /\
    spc1 <= spc2.
Proof.
  intros Hb1 Hb2 Hlo Hle Hhi.
  destruct (auto_geometry dev1 fd label c1 Hb1)
    as (spc1 & logs1 & _ & Hs1 & _ & A1 & A8 & A16 & A32 & A64);
    [unfold UINT32_MAX; lia |].
  destruct (auto_geometry dev2 fd label c2 Hb2)
    as (spc2 & logs2 & _ & Hs2 & _ & B1 & B8 & B16 & B32 & B64);
    [unfold UINT32_MAX; lia |].
  exists spc1, spc2. split; [exact Hs1 |]. split; [exact Hs2 |]. lia.
Qed.

Lemma auto_cluster_size_monotone_witness :
  exists spc1 spc2,
    written_SecPerClus (snd (format_fat32 (good_dev 100000) 3 BS_AUTO "TEST"))
      = Some spc1 /\
    written_SecPerClus (snd (format_fat32 (good_dev 20000000) 3 BS_AUTO "TEST"))
      = Some spc2 /\
    spc1 <= spc2.
Proof.
  apply (auto_cluster_size_monotone (good_dev 100000) (good_dev 20000000) 3 "TEST"
           100000 20000000); [reflexivity | reflexivity | lia | lia | lia].
Defined.

(** ** Which requests can misplace the second FAT *)



